(** * Log Intelligence backend (src/app.py): ingestion, statistics, search

    A shallow embedding of the Flask handlers [upload], [stats] and [search]
    of src/app.py and of the pandas operations they call (pandas 2.x
    behaviour), followed by the properties of the specification that can be
    settled on it.

    Conventions.
    - Text is a [string] of 8-bit characters: the file is decoded with
      [encoding='latin1'], which maps every byte to one character and never
      fails.
    - A DataFrame is an ordered list of named columns of [cell]s; a missing
      value (NaN, NaT, None) is [CNull].
    - The numeric lexers of pandas, the float64 operations, the regular
      expression engine and the sort behind [value_counts] are taken through
      the [Backend] interface; what a statement needs of them is a hypothesis
      of that statement. [reference_backend] is an executable instance for
      the common fragment (decimal literals, metacharacter-free patterns, a
      stable sort), used to evaluate the handlers on concrete files.
    - The tokenizer is modelled on the quote-free fragment: a text without
      double quotes and carriage returns, where a record is one '\n'
      terminated line and a field is a maximal tab-free run. *)

From Stdlib Require Import List String Ascii ZArith QArith Lia Bool Arith.
From Stdlib Require Import Permutation Sorted.
Import ListNotations.

Close Scope Q_scope.
Local Open Scope string_scope.
Local Open Scope list_scope.

(* ------------------------------------------------------------------------- *)
(** ** Strings *)
(* ------------------------------------------------------------------------- *)

Module Str.

Definition tab : ascii := Ascii.ascii_of_nat 9.
Definition nl : ascii := Ascii.ascii_of_nat 10.
Definition cr : ascii := Ascii.ascii_of_nat 13.
Definition space : ascii := Ascii.ascii_of_nat 32.
Definition dquote : ascii := Ascii.ascii_of_nat 34.

(** [s.split(sep)] for a one-character separator: never empty, keeps empty
    fields. *)
Fixpoint split_on (sep : ascii) (s : string) : list string :=
  match s with
  | EmptyString => [EmptyString]
  | String c s' =>
      if Ascii.eqb c sep then EmptyString :: split_on sep s'
      else match split_on sep s' with
           | [] => [String c EmptyString]
           | f :: fs => String c f :: fs
           end
  end.

(** The '\n'-terminated lines of a text; a final line without terminator
    counts when it is not empty. *)
Definition lines (text : string) : list string :=
  match rev (split_on nl text) with
  | EmptyString :: r => rev r
  | _ => split_on nl text
  end.

Definition all_chars (p : ascii -> bool) (s : string) : bool :=
  forallb p (list_ascii_of_string s).

Definition has_char (p : ascii -> bool) (s : string) : bool :=
  existsb p (list_ascii_of_string s).

(** [str.isspace] on the latin-1 range: TAB..CR, FS..US, SPACE, NEL, NBSP. *)
Definition is_py_space (c : ascii) : bool :=
  let n := nat_of_ascii c in
  (((9 <=? n) && (n <=? 13)) || ((28 <=? n) && (n <=? 32))
   || (n =? 133) || (n =? 160))%nat.

Fixpoint lstrip (s : string) : string :=
  match s with
  | EmptyString => EmptyString
  | String c s' => if is_py_space c then lstrip s' else s
  end.

Definition rev_string (s : string) : string :=
  string_of_list_ascii (rev (list_ascii_of_string s)).

(** [s.strip()] *)
Definition strip (s : string) : string :=
  rev_string (lstrip (rev_string (lstrip s))).

(** [s.split()] with no argument: maximal runs of non-whitespace. *)
Fixpoint split_ws_aux (cur : option string) (s : string) : list string :=
  match s with
  | EmptyString => match cur with Some w => [rev_string w] | None => [] end
  | String c s' =>
      if is_py_space c then
        match cur with
        | Some w => rev_string w :: split_ws_aux None s'
        | None => split_ws_aux None s'
        end
      else
        match cur with
        | Some w => split_ws_aux (Some (String c w)) s'
        | None => split_ws_aux (Some (String c EmptyString)) s'
        end
  end.

Definition split_ws (s : string) : list string := split_ws_aux None s.

(** Unicode lower-casing restricted to latin-1: A-Z and the accented
    capitals 0xC0-0xDE except the multiplication sign 0xD7. *)
Definition lower_char (c : ascii) : ascii :=
  let n := nat_of_ascii c in
  if (((65 <=? n) && (n <=? 90))
      || ((192 <=? n) && (n <=? 222) && negb (n =? 215)))%nat
  then ascii_of_nat (n + 32) else c.

Fixpoint lower (s : string) : string :=
  match s with
  | EmptyString => EmptyString
  | String c s' => String (lower_char c) (lower s')
  end.

Fixpoint contains (needle hay : string) : bool :=
  String.prefix needle hay
  || match hay with
     | EmptyString => false
     | String _ hay' => contains needle hay'
     end.

(** Case-insensitive literal containment. *)
Definition icontains (needle hay : string) : bool :=
  contains (lower needle) (lower hay).

Definition digit_char (d : Z) : ascii := ascii_of_nat (48 + Z.to_nat d).

Fixpoint digits_fuel (fuel : nat) (n : Z) (acc : string) : string :=
  match fuel with
  | O => acc
  | S k =>
      let acc' := String (digit_char (n mod 10)%Z) acc in
      if (n <? 10)%Z then acc' else digits_fuel k (n / 10)%Z acc'
  end.

(** [str(n)] for a Python int. *)
Definition of_Z (n : Z) : string :=
  let a := Z.abs n in
  let body := digits_fuel (S (Z.to_nat (Z.log2 a))) a EmptyString in
  if (n <? 0)%Z then String "-" body else body.

(** Zero-padded decimal of width [w], as [%02d] and [%04d]. *)
Fixpoint zeros (n : nat) : string :=
  match n with
  | O => EmptyString
  | S k => String "0" (zeros k)
  end.

Definition pad_left (w : nat) (s : string) : string :=
  zeros (w - String.length s) ++ s.

Definition is_digit (c : ascii) : bool :=
  let n := nat_of_ascii c in ((48 <=? n) && (n <=? 57))%nat.

Fixpoint digits_value (acc : Z) (s : string) : Z :=
  match s with
  | EmptyString => acc
  | String c s' => digits_value (10 * acc + Z.of_nat (nat_of_ascii c - 48))%Z s'
  end.

(** An unsigned run of one or more decimal digits. *)
Definition parse_digits (s : string) : option Z :=
  match s with
  | EmptyString => None
  | _ => if all_chars is_digit s then Some (digits_value 0 s) else None
  end.

(** A decimal integer with an optional sign. *)
Definition parse_signed (s : string) : option Z :=
  match s with
  | String "-" r => option_map Z.opp (parse_digits r)
  | String "+" r => parse_digits r
  | _ => parse_digits s
  end.

End Str.

(* ------------------------------------------------------------------------- *)
(** ** Generic list helpers *)
(* ------------------------------------------------------------------------- *)

Fixpoint all_some {A : Type} (l : list (option A)) : option (list A) :=
  match l with
  | [] => Some []
  | None :: _ => None
  | Some x :: r => option_map (cons x) (all_some r)
  end.

Definition is_some {A : Type} (o : option A) : bool :=
  match o with Some _ => true | None => false end.

Fixpoint keep_some {A : Type} (l : list (option A)) : list A :=
  match l with
  | [] => []
  | None :: r => keep_some r
  | Some x :: r => x :: keep_some r
  end.

Fixpoint sum_nat (l : list nat) : nat :=
  match l with
  | [] => 0
  | x :: r => x + sum_nat r
  end.

(* ------------------------------------------------------------------------- *)
(** ** The record parser: [pd.read_csv], tokenizer part *)
(* ------------------------------------------------------------------------- *)

(** Records and fields of a quote-free text, as the C tokenizer of pandas
    cuts them with [sep='\t'] and the other options left at their default. *)
Module Csv.

(** [column_names] of [upload]. *)
Definition column_names : list string :=
  ["host"; "dash"; "time_epoch"; "method"; "url"; "status"; "bytes"].

(** With [skip_blank_lines=True] the tokenizer ignores a line that is empty
    or made of spaces only; a line of tabs is a record of empty fields. *)
Definition is_blank_line (l : string) : bool :=
  Str.all_chars (Ascii.eqb Str.space) l.

Definition fields (l : string) : list string := Str.split_on Str.tab l.

(** The tab-separated column count of a raw line. *)
Definition ncols (l : string) : nat := List.length (fields l).

Definition data_lines (text : string) : list string :=
  filter (fun l => negb (is_blank_line l)) (Str.lines text).

(** The number of fields the reader expects: the number of passed names, or
    the width of the first record when that is larger (the extra leading
    fields then become the index). *)
Definition table_width (ls : list string) : nat :=
  match ls with
  | [] => List.length column_names
  | l :: _ => Nat.max (List.length column_names) (ncols l)
  end.

(** [on_bad_lines='skip']: a record with more fields than expected is
    dropped; one with fewer is kept. *)
Definition is_bad_line (w : nat) (l : string) : bool := (w <? ncols l)%nat.

Definition keeps (w : nat) (l : string) : bool :=
  negb (is_blank_line l) && negb (is_bad_line w l).

Definition width_of (text : string) : nat := table_width (data_lines text).

Definition accepted_lines (text : string) : list string :=
  filter (keeps (width_of text)) (Str.lines text).

Definition dropped_lines (text : string) : list string :=
  filter (fun l => negb (keeps (width_of text) l)) (Str.lines text).

(** Missing trailing fields are closed as empty fields. *)
Definition pad (w : nat) (r : list string) : list string :=
  r ++ repeat EmptyString (w - List.length r).

(** The rows of the parsed frame, restricted to the named columns (the last
    [List.length column_names] of the expected fields). *)
Definition rows (text : string) : list (list string) :=
  let w := width_of text in
  map (fun l => skipn (w - List.length column_names) (pad w (fields l)))
      (accepted_lines text).

(** The tokens of the [j]-th named column. *)
Definition column_tokens (text : string) (j : nat) : list string :=
  map (fun r => nth j r EmptyString) (rows text).

(** Quote-free text: no double quote, no carriage return. *)
Definition plain_text (text : string) : bool :=
  negb (Str.has_char (fun c => Ascii.eqb c Str.dquote || Ascii.eqb c Str.cr) text).

(** Default NA markers of [read_csv]. *)
Definition STR_NA_VALUES : list string :=
  [""; "#N/A"; "#N/A N/A"; "#NA"; "-1.#IND"; "-1.#QNAN"; "-NaN"; "-nan";
   "1.#IND"; "1.#QNAN"; "<NA>"; "N/A"; "NA"; "NULL"; "NaN"; "None"; "n/a";
   "nan"; "null"].

Definition is_na (tok : string) : bool := existsb (String.eqb tok) STR_NA_VALUES.

Definition true_values : list string := ["True"; "TRUE"; "true"].
Definition false_values : list string := ["False"; "FALSE"; "false"].

End Csv.

(* ------------------------------------------------------------------------- *)
(** ** The pandas back-end *)
(* ------------------------------------------------------------------------- *)

(** The values of an IEEE binary64 other than NaN. *)
Class FloatType : Type := { float64 : Type }.

(** What [upload], [stats] and [search] take from pandas, numpy and [re]
    without fixing it themselves. *)
Class Backend {FT : FloatType} : Type := {
  (** the int64 and float64 conversions the C parser tries on a token that
      is not an NA marker *)
  csv_int : string -> option Z;
  csv_float : string -> option float64;
  (** [pd.to_numeric] on one string of an object column *)
  str_to_numeric : string -> option (Z + float64);
  (** [pd.to_datetime(unit='s')] on one string of an object column:
      nanoseconds since the epoch *)
  str_epoch_ns : string -> option Z;
  float_of_int : Z -> float64;
  float_is_finite : float64 -> bool;
  (** [astype(int)] on a finite float *)
  float_to_int : float64 -> Z;
  (** [str] of a float *)
  float_str : float64 -> string;
  float_eqb : float64 -> float64 -> bool;
  (** [pd.to_datetime(unit='s')] on a float: [None] when out of bounds *)
  float_epoch_ns : float64 -> option Z;
  (** [re.compile(pat, re.IGNORECASE).search(s) is not None]; [None] when
      the pattern does not compile *)
  re_search_icase : string -> string -> option bool;
  (** [sort_values(ascending=False)] on the counts of [value_counts] *)
  sort_counts : forall K : Type, list (K * nat) -> list (K * nat)
}.

Inductive exn : Type :=
| KeyError (name : string)
| AttributeError
| IntCastingNaNError
| ReError
| ResampleError.

Inductive result (A : Type) : Type :=
| Ok (a : A)
| Raise (e : exn).

Arguments Ok {A} a.
Arguments Raise {A} e.

Definition bind {A C : Type} (r : result A) (k : A -> result C) : result C :=
  match r with
  | Ok a => k a
  | Raise e => Raise e
  end.

Notation "x <- r ;; k" := (bind r (fun x => k))
  (at level 61, r at next level, right associativity).

(** Characters with a meaning in a Python regular expression. *)
Definition regex_special (c : ascii) : bool :=
  existsb (Ascii.eqb c)
    (list_ascii_of_string ".^$*+?{}[]|()" ++ [Ascii.ascii_of_nat 92]).

Definition regex_plain (pat : string) : bool :=
  negb (Str.has_char regex_special pat).

(** *** Calendar: [Timestamp] rendering in UTC *)

Module Cal.

Local Open Scope Z_scope.

Definition ns_per_s : Z := 1000000000.
Definition hour_ns : Z := 3600 * ns_per_s.

(** Bounds of [datetime64[ns]]; the minimum int64 is NaT. *)
Definition ns_max : Z := 9223372036854775807.

Definition in_bounds (ns : Z) : bool := (- ns_max <=? ns) && (ns <=? ns_max).

(** An integer count of seconds as an instant; out of bounds is coerced to
    NaT. *)
Definition ns_of_seconds (s : Z) : option Z :=
  let ns := s * ns_per_s in if in_bounds ns then Some ns else None.

(** Proleptic Gregorian date of a day number counted from 1970-01-01. *)
Definition civil_of_days (days : Z) : Z * Z * Z :=
  let z := days + 719468 in
  let era := z / 146097 in
  let doe := z - era * 146097 in
  let yoe := (doe - doe / 1460 + doe / 36524 - doe / 146096) / 365 in
  let doy := doe - (365 * yoe + yoe / 4 - yoe / 100) in
  let mp := (5 * doy + 2) / 153 in
  let d := doy - (153 * mp + 2) / 5 + 1 in
  let m := if mp <? 10 then mp + 3 else mp - 9 in
  let y := yoe + era * 400 + (if m <=? 2 then 1 else 0) in
  (y, m, d).

(** Day number of a proleptic Gregorian date, the inverse direction. *)
Definition days_of_civil (y m d : Z) : Z :=
  let y' := if m <=? 2 then y - 1 else y in
  let era := y' / 400 in
  let yoe := y' - era * 400 in
  let mp := if 2 <? m then m - 3 else m + 9 in
  let doy := (153 * mp + 2) / 5 + d - 1 in
  let doe := yoe * 365 + yoe / 4 - yoe / 100 + doy in
  era * 146097 + doe - 719468.

(** The day numbers of 1900-01-01 and 2100-01-01. *)
Definition day_min : Z := -25567.
Definition day_max : Z := 47482.

(** [civil_of_days d] is a date of the calendar whose day number is [d]. *)
Definition civil_ok (d : Z) : bool :=
  let '(y, m, dd) := civil_of_days d in
  (days_of_civil y m dd =? d) && (1 <=? m) && (m <=? 12)
  && (1 <=? dd) && (dd <=? 31).

Fixpoint civil_ok_from (n : nat) (d : Z) : bool :=
  match n with
  | O => true
  | S k => civil_ok d && civil_ok_from k (d + 1)
  end.

Definition month_abbr (m : Z) : string :=
  nth (Z.to_nat (m - 1))
    ["Jan"; "Feb"; "Mar"; "Apr"; "May"; "Jun";
     "Jul"; "Aug"; "Sep"; "Oct"; "Nov"; "Dec"] "".

Definition two (n : Z) : string := Str.pad_left 2 (Str.of_Z n).
Definition four (n : Z) : string := Str.pad_left 4 (Str.of_Z n).

(** [strftime('%d/%b/%Y:%H:%M:%S')] of a naive (UTC) instant. *)
Definition strftime (ns : Z) : string :=
  let secs := ns / ns_per_s in
  let '(y, m, d) := civil_of_days (secs / 86400) in
  let sod := secs mod 86400 in
  (two d ++ "/" ++ month_abbr m ++ "/" ++ four y ++ ":"
   ++ two (sod / 3600) ++ ":" ++ two (sod mod 3600 / 60) ++ ":"
   ++ two (sod mod 60))%string.

(** [str] of a [Timestamp] on a whole second. *)
Definition timestamp_str (ns : Z) : string :=
  let secs := ns / ns_per_s in
  let '(y, m, d) := civil_of_days (secs / 86400) in
  let sod := secs mod 86400 in
  (four y ++ "-" ++ two m ++ "-" ++ two d ++ " "
   ++ two (sod / 3600) ++ ":" ++ two (sod mod 3600 / 60) ++ ":"
   ++ two (sod mod 60))%string.

End Cal.

(* ------------------------------------------------------------------------- *)
(** ** DataFrames *)
(* ------------------------------------------------------------------------- *)

Section Frame.

Context {FT : FloatType} {B : Backend}.

(** One value of a column. [CNull] is NaN, NaT or None. *)
Inductive cell : Type :=
| CNull
| CInt (z : Z)
| CFloat (f : float64)
| CBool (b : bool)
| CStr (s : string)
| CTime (ns : Z).

Definition column : Type := list cell.

(** Columns in insertion order. *)
Definition dataframe : Type := list (string * column).

Fixpoint df_get (name : string) (df : dataframe) : result column :=
  match df with
  | [] => Raise (KeyError name)
  | (n, c) :: rest => if String.eqb n name then Ok c else df_get name rest
  end.

(** [df[name] = col]: replaces the column in place or appends it. *)
Fixpoint df_set (name : string) (col : column) (df : dataframe) : dataframe :=
  match df with
  | [] => [(name, col)]
  | (n, c) :: rest =>
      if String.eqb n name then (n, col) :: rest
      else (n, c) :: df_set name col rest
  end.

(** [df[[names]]]: a new frame with the listed columns. *)
Fixpoint df_select (names : list string) (df : dataframe) : result dataframe :=
  match names with
  | [] => Ok []
  | n :: rest =>
      c <- df_get n df ;;
      r <- df_select rest df ;;
      Ok ((n, c) :: r)
  end.

(** [len(df)] *)
Definition nrows (df : dataframe) : nat :=
  match df with
  | [] => 0
  | (_, c) :: _ => List.length c
  end.

Definition is_null (c : cell) : bool :=
  match c with CNull => true | _ => false end.

Definition is_str (c : cell) : bool :=
  match c with CStr _ => true | _ => false end.

Definition is_int (c : cell) : bool :=
  match c with CInt _ => true | _ => false end.

(** int64, float64 (NaN excluded) or bool *)
Definition is_number (c : cell) : bool :=
  match c with CInt _ | CFloat _ | CBool _ => true | _ => false end.

(** *** Column type inference of [read_csv] *)

Definition cell_int (tok : string) : option cell :=
  if Csv.is_na tok then None else option_map CInt (csv_int tok).

Definition cell_float (tok : string) : option cell :=
  if Csv.is_na tok then Some CNull else option_map CFloat (csv_float tok).

Definition cell_bool (tok : string) : option cell :=
  if existsb (String.eqb tok) Csv.true_values then Some (CBool true)
  else if existsb (String.eqb tok) Csv.false_values then Some (CBool false)
  else None.

Definition cell_object (tok : string) : cell :=
  if Csv.is_na tok then CNull else CStr tok.

(** The cast order of the C parser: int64, float64, bool, object. *)
Definition infer_column (toks : list string) : column :=
  match all_some (map cell_int toks) with
  | Some c => c
  | None =>
      match all_some (map cell_float toks) with
      | Some c => c
      | None =>
          match all_some (map cell_bool toks) with
          | Some c => c
          | None => map cell_object toks
          end
      end
  end.

(** [pd.read_csv(path, sep='\t', header=None, names=column_names,
    on_bad_lines='skip', encoding='latin1', low_memory=False)] applied to
    the content of the file. *)
Definition read_csv (text : string) : dataframe :=
  map (fun jn => (snd jn, infer_column (Csv.column_tokens text (fst jn))))
      (combine (seq 0 (List.length Csv.column_names)) Csv.column_names).

(** *** Field derivation *)

(** [astype(str)] on one value. *)
Definition astype_str (c : cell) : string :=
  match c with
  | CNull => "nan"
  | CInt z => Str.of_Z z
  | CFloat f => float_str f
  | CBool true => "True"
  | CBool false => "False"
  | CStr s => s
  | CTime ns => Cal.timestamp_str ns
  end.

(** [a.astype(str) + " " + b.astype(str)] *)
Definition concat_request (m u : cell) : cell :=
  CStr (astype_str m ++ " " ++ astype_str u).

(** [pd.to_datetime(col, unit='s', errors='coerce')] on one value. *)
Definition to_datetime (c : cell) : cell :=
  let of_ns o := match o with Some ns => CTime ns | None => CNull end in
  match c with
  | CInt z => of_ns (Cal.ns_of_seconds z)
  | CFloat f => of_ns (float_epoch_ns f)
  | CStr s => of_ns (str_epoch_ns s)
  | CTime ns => CTime ns
  | CNull | CBool _ => CNull
  end.

(** [col.dt.strftime('%d/%b/%Y:%H:%M:%S')] on one value: NaT gives NaN. *)
Definition strftime_cell (c : cell) : cell :=
  match c with
  | CTime ns => CStr (Cal.strftime ns)
  | _ => CNull
  end.

(** [pd.to_numeric(col, errors='coerce')]: a numeric column is returned as
    it is; the strings of an object column are parsed one by one, and the
    result is int64 when every value is an integer, float64 otherwise. *)
Definition parse_numeric_cell (c : cell) : cell :=
  match c with
  | CStr s =>
      match str_to_numeric s with
      | Some (inl z) => CInt z
      | Some (inr f) => CFloat f
      | None => CNull
      end
  | CInt _ | CFloat _ | CBool _ => c
  | CNull | CTime _ => CNull
  end.

Definition upcast_float (c : cell) : cell :=
  match c with
  | CInt z => CFloat (float_of_int z)
  | _ => c
  end.

Definition to_numeric (col : column) : column :=
  if existsb is_str col then
    let parsed := map parse_numeric_cell col in
    if forallb is_int parsed then parsed else map upcast_float parsed
  else col.

(** [fillna(0)] on a numeric column: NaN lives in float64 columns only. *)
Definition fillna0 (c : cell) : cell :=
  match c with
  | CNull => CFloat (float_of_int 0)
  | _ => c
  end.

(** [astype(int)]: refuses a column holding a non-finite value. *)
Definition astype_int_cell (c : cell) : result cell :=
  match c with
  | CInt z => Ok (CInt z)
  | CFloat f =>
      if float_is_finite f then Ok (CInt (float_to_int f))
      else Raise IntCastingNaNError
  | CBool b => Ok (CInt (if b then 1 else 0)%Z)
  | CNull | CStr _ | CTime _ => Raise IntCastingNaNError
  end.

Fixpoint astype_int (col : column) : result column :=
  match col with
  | [] => Ok []
  | c :: rest =>
      c' <- astype_int_cell c ;;
      r <- astype_int rest ;;
      Ok (c' :: r)
  end.

Fixpoint map2 {X Y Z' : Type} (f : X -> Y -> Z') (l1 : list X) (l2 : list Y)
  : list Z' :=
  match l1, l2 with
  | x :: r1, y :: r2 => f x y :: map2 f r1 r2
  | _, _ => []
  end.

(** The statements of [upload] after the read, in order. The first five
    assign a column of the frame the global [df] refers to; the last one
    rebinds [df] to the projection. *)
Definition step_request (df : dataframe) : result dataframe :=
  m <- df_get "method" df ;;
  u <- df_get "url" df ;;
  Ok (df_set "request" (map2 concat_request m u) df).

Definition step_dt (df : dataframe) : result dataframe :=
  c <- df_get "time_epoch" df ;;
  Ok (df_set "dt" (map to_datetime c) df).

Definition step_time (df : dataframe) : result dataframe :=
  c <- df_get "dt" df ;;
  Ok (df_set "time" (map strftime_cell c) df).

Definition step_status (df : dataframe) : result dataframe :=
  c <- df_get "status" df ;;
  c' <- astype_int (map fillna0 (to_numeric c)) ;;
  Ok (df_set "status" c' df).

Definition step_bytes (df : dataframe) : result dataframe :=
  c <- df_get "bytes" df ;;
  Ok (df_set "bytes" (map fillna0 (to_numeric c)) df).

Definition table_columns : list string :=
  ["host"; "time"; "request"; "status"; "bytes"; "dt"].

Definition step_project (df : dataframe) : result dataframe :=
  df_select table_columns df.

Definition upload_steps : list (dataframe -> result dataframe) :=
  [step_request; step_dt; step_time; step_status; step_bytes; step_project].

(** Runs the statements from frame [df]: the frames the global holds after
    each completed statement, and the exception that stopped the run. *)
Fixpoint run_steps (steps : list (dataframe -> result dataframe))
    (df : dataframe) : list dataframe * option exn :=
  match steps with
  | [] => ([], None)
  | st :: rest =>
      match st df with
      | Raise e => ([], Some e)
      | Ok df' =>
          let (tr, e) := run_steps rest df' in (df' :: tr, e)
      end
  end.

(** The process-wide [df]: [None] until the first read. *)
Definition store : Type := option dataframe.

Inductive response : Type :=
| Loaded (n : nat)          (* 200, 'Successfully loaded n logs.' *)
| NotFound                  (* 404 *)
| ServerError (e : exn).    (* 500 *)

(** The configuration of the host the process runs on, as far as time
    conversion could depend on it: the offset of the local time zone in
    seconds. No statement of [upload] reads it. *)
Record host_env : Type := { tz_offset : Z }.

(** One call of [upload]: [writes] lists the values the global [df] takes,
    oldest first, and [reply] is the HTTP answer. [file] is the content of
    logs.tsv, [None] when the file does not exist. *)
Record run : Type := { writes : list dataframe; reply : response }.

Definition upload (env : host_env) (file : option string) : run :=
  match file with
  | None => {| writes := []; reply := NotFound |}
  | Some text =>
      let raw := read_csv text in
      let (tr, e) := run_steps upload_steps raw in
      {| writes := raw :: tr;
         reply := match e with
                  | Some err => ServerError err
                  | None => Loaded (nrows (last tr raw))
                  end |}
  end.

(** The global after the call. *)
Definition store_after (prev : store) (r : run) : store :=
  match writes r with
  | [] => prev
  | w :: ws => Some (last ws w)
  end.

End Frame.

(* ------------------------------------------------------------------------- *)
(** ** The Log Table and its readers *)
(* ------------------------------------------------------------------------- *)

Section Readers.

Context {FT : FloatType} {B : Backend}.

(** One row of the frame [upload] publishes on success. *)
Record record : Type := {
  host : cell;
  time : cell;
  request : string;
  status : Z;
  bytes : cell;
  dt : option Z
}.

Definition table : Type := list record.

Definition row_at (df : dataframe) (i : nat) : option record :=
  match df_get "host" df, df_get "time" df, df_get "request" df,
        df_get "status" df, df_get "bytes" df, df_get "dt" df with
  | Ok h, Ok t, Ok r, Ok s, Ok b, Ok d =>
      match nth_error h i, nth_error t i, nth_error r i,
            nth_error s i, nth_error b i, nth_error d i with
      | Some ch, Some ct, Some (CStr rq), Some (CInt st), Some cb, Some cd =>
          match cd with
          | CTime ns => Some {| host := ch; time := ct; request := rq;
                                status := st; bytes := cb; dt := Some ns |}
          | CNull => Some {| host := ch; time := ct; request := rq;
                             status := st; bytes := cb; dt := None |}
          | _ => None
          end
      | _, _, _, _, _, _ => None
      end
  | _, _, _, _, _, _ => None
  end.

(** The rows of a frame that has the six columns of the Log Table with a
    string [request], an integer [status] and a datetime [dt]. *)
Definition log_table (df : dataframe) : option table :=
  all_some (map (row_at df) (seq 0 (nrows df))).

(** *** value_counts *)

Section Counting.

Variable K : Type.
Variable eqb : K -> K -> bool.

Definition count_key (k : K) (l : list K) : nat :=
  List.length (filter (eqb k) l).

(** The distinct keys in order of first occurrence. *)
Fixpoint distinct (l : list K) : list K :=
  match l with
  | [] => []
  | x :: r => x :: filter (fun y => negb (eqb x y)) (distinct r)
  end.

(** The hash table pass of [value_counts]: one entry per distinct key, in
    order of first occurrence. *)
Definition counts_in_order (l : list K) : list (K * nat) :=
  map (fun k => (k, count_key k l)) (distinct l).

(** [col.value_counts()] on the non-null values. *)
Definition value_counts (l : list K) : list (K * nat) :=
  sort_counts K (counts_in_order l).

(** [col.value_counts().head(5)] *)
Definition top5 (l : list K) : list (K * nat) := firstn 5 (value_counts l).

End Counting.

Definition cell_eqb (a b : cell) : bool :=
  match a, b with
  | CNull, CNull => true
  | CInt x, CInt y => Z.eqb x y
  | CFloat x, CFloat y => float_eqb x y
  | CBool x, CBool y => Bool.eqb x y
  | CStr x, CStr y => String.eqb x y
  | CTime x, CTime y => Z.eqb x y
  | _, _ => false
  end.

(** [dropna] *)
Definition non_null (l : list cell) : list cell :=
  filter (fun c => negb (is_null c)) l.

(** *** stats *)

Definition is_error_status (r : record) : bool :=
  ((400 <=? status r) && (status r <? 600))%Z.

Definition error_count (t : table) : nat :=
  List.length (filter is_error_status t).

(** [round(n / d, 0)] for integers [n >= 0], [d > 0]: nearest integer, a
    tie going to the even one. *)
Definition round_half_even (n d : Z) : Z :=
  let q := (n / d)%Z in
  let r := (n mod d)%Z in
  if (2 * r <? d)%Z then q
  else if (d <? 2 * r)%Z then (q + 1)%Z
  else if Z.even q then q else (q + 1)%Z.

(** [round(100.0 * error_count / total, 2) if total else 0.0], with float
    arithmetic read as exact: the result in hundredths of a percent. *)
Definition error_rate_hundredths (t : table) : Z :=
  match t with
  | [] => 0%Z
  | _ => round_half_even (10000 * Z.of_nat (error_count t))
                         (Z.of_nat (List.length t))
  end.

Definition error_rate_pct (t : table) : Q :=
  Qmake (error_rate_hundredths t) 100.

(** [df['host'].value_counts().head(5)], entries as [(str(k), int(v))]. *)
Definition top_5_ips (t : table) : list (string * nat) :=
  map (fun kv => (astype_str (fst kv), snd kv))
      (top5 cell cell_eqb (non_null (map host t))).

(** [col.str.split().str[1]] on one value: the second whitespace-separated
    token, NaN when there is none. *)
Definition second_token (c : cell) : result cell :=
  match c with
  | CStr s =>
      match Str.split_ws s with
      | _ :: tok :: _ => Ok (CStr tok)
      | _ => Ok CNull
      end
  | CNull => Ok CNull
  | _ => Raise AttributeError
  end.

Fixpoint str_split_get1 (col : list cell) : result (list cell) :=
  match col with
  | [] => Ok []
  | c :: rest =>
      c' <- second_token c ;;
      r <- str_split_get1 rest ;;
      Ok (c' :: r)
  end.

(** The [try]/[except] around the endpoint ranking: the handler falls back
    to the full request only when the [.str] expression raises. *)
Definition top_5_endpoints (t : table) : list (string * nat) :=
  let col := map (fun r => CStr (request r)) t in
  let ranked :=
    match str_split_get1 col with
    | Ok toks => top5 cell cell_eqb (non_null toks)
    | Raise _ => top5 cell cell_eqb (non_null col)
    end in
  map (fun kv => (astype_str (fst kv), snd kv)) ranked.

Definition bucket (ns : Z) : Z := (ns / Cal.hour_ns)%Z.

Definition zrange (lo hi : Z) : list Z :=
  map (fun i => (lo + Z.of_nat i)%Z) (seq 0 (Z.to_nat (hi - lo + 1))).

(** [df.set_index('dt').resample('h').size()]: one bin per hour from the
    hour of the earliest valid instant to the hour of the latest, rows
    without instant left out. An index without any valid instant has no
    edges to build bins from. *)
Definition resample_hour_size (ts : list (option Z))
  : result (list (Z * nat)) :=
  match keep_some ts with
  | [] => Raise ResampleError
  | v :: vs =>
      let lo := fold_right Z.min (bucket v) (map bucket vs) in
      let hi := fold_right Z.max (bucket v) (map bucket vs) in
      Ok (map (fun k => ((k * Cal.hour_ns)%Z,
                         List.length
                           (filter (fun x => Z.eqb (bucket x) k) (v :: vs))))
              (zrange lo hi))
  end.

Definition requests_over_time (t : table) : list (string * nat) :=
  match resample_hour_size (map dt t) with
  | Ok bins => map (fun kv => (Cal.timestamp_str (fst kv), snd kv)) bins
  | Raise _ => []
  end.

Record stats_result : Type := {
  total : nat;
  unique_ips : nat;
  error_rate : Q;
  top_ips : list (string * nat);
  top_endpoints : list (string * nat);
  over_time : list (string * nat)
}.

(** The handler [stats]; [g] is the global, [None] before any upload. *)
Definition stats (g : option table) : stats_result :=
  match g with
  | None | Some [] =>
      {| total := 0; unique_ips := 0; error_rate := 0%Q; top_ips := [];
         top_endpoints := []; over_time := [] |}
  | Some t =>
      {| total := List.length t;
         unique_ips := List.length (distinct cell cell_eqb (non_null (map host t)));
         error_rate := error_rate_pct t;
         top_ips := top_5_ips t;
         top_endpoints := top_5_endpoints t;
         over_time := requests_over_time t |}
  end.

(** *** search *)

(** [{k: str(v) for k, v in r.items() if k != 'dt'}] *)
Definition render (r : record) : list (string * string) :=
  [("host", astype_str (host r)); ("time", astype_str (time r));
   ("request", request r); ("status", Str.of_Z (status r));
   ("bytes", astype_str (bytes r))].

(** [col.str.contains(q, case=False, na=False)]: [q] is compiled as a
    regular expression. *)
Fixpoint str_contains (q : string) (col : list string) : result (list bool) :=
  match col with
  | [] => Ok []
  | s :: rest =>
      match re_search_icase q s with
      | None => Raise ReError
      | Some b => r <- str_contains q rest ;; Ok (b :: r)
      end
  end.

Fixpoint select_mask {A : Type} (l : list A) (mask : list bool) : list A :=
  match l, mask with
  | x :: r, b :: m => if b then x :: select_mask r m else select_mask r m
  | _, _ => []
  end.

Record search_result : Type := {
  count : nat;
  results : list (list (string * string))
}.

(** The handler [search]; [arg] is the value of the query parameter [q]. *)
Definition search (g : option table) (arg : string) : result search_result :=
  let q := Str.strip arg in
  match g with
  | None | Some [] => Ok {| count := 0; results := [] |}
  | Some t =>
      if String.eqb q "" then Ok {| count := 0; results := [] |}
      else
        mask <- str_contains q (map request t) ;;
        let matches := firstn 50 (select_mask t mask) in
        let res := map render matches in
        Ok {| count := List.length res; results := res |}
  end.

End Readers.

(* ------------------------------------------------------------------------- *)
(** ** A reference back-end *)
(* ------------------------------------------------------------------------- *)

Module Ref.

Local Open Scope Z_scope.

(** A decimal float: [m / 10^scale], or an infinity. *)
Inductive rfloat : Type :=
| RDec (m : Z) (scale : nat)
| RInf (neg : bool).

Definition parse_unsigned_dec (s : string) : option rfloat :=
  match Str.split_on "." s with
  | [a] => option_map (fun z => RDec z 0) (Str.parse_digits a)
  | [a; b] =>
      match a, b with
      | EmptyString, EmptyString => None
      | _, _ =>
          if Str.all_chars Str.is_digit a && Str.all_chars Str.is_digit b
          then Some (RDec (Str.digits_value (Str.digits_value 0 a) b)
                          (String.length b))
          else None
      end
  | _ => None
  end.

Definition neg_rfloat (f : rfloat) : rfloat :=
  match f with
  | RDec m k => RDec (- m) k
  | RInf b => RInf (negb b)
  end.

Definition parse_unsigned (s : string) : option rfloat :=
  if existsb (String.eqb s) ["inf"; "Inf"; "INF"; "infinity"; "Infinity"]%string
  then Some (RInf false) else parse_unsigned_dec s.

Definition parse_float (s : string) : option rfloat :=
  match s with
  | String "-" r => option_map neg_rfloat (parse_unsigned r)
  | String "+" r => parse_unsigned r
  | _ => parse_unsigned s
  end.

Definition to_int (f : rfloat) : Z :=
  match f with
  | RDec m k => Z.quot m (10 ^ Z.of_nat k)
  | RInf _ => 0
  end.

Definition is_finite (f : rfloat) : bool :=
  match f with RDec _ _ => true | RInf _ => false end.

Definition to_str (f : rfloat) : string :=
  match f with
  | RInf false => "inf"
  | RInf true => "-inf"
  | RDec m k =>
      let p := 10 ^ Z.of_nat k in
      let a := Z.abs m in
      ((if (m <? 0)%Z then "-" else "") ++ Str.of_Z (a / p) ++ "."
       ++ Str.pad_left (Nat.max 1 k) (Str.of_Z (a mod p)))%string
  end.

Definition feqb (x y : rfloat) : bool :=
  match x, y with
  | RDec m1 k1, RDec m2 k2 =>
      m1 * 10 ^ Z.of_nat k2 =? m2 * 10 ^ Z.of_nat k1
  | RInf a, RInf b => Bool.eqb a b
  | _, _ => false
  end.

Definition epoch_ns (f : rfloat) : option Z :=
  match f with
  | RDec m k =>
      let ns := Z.quot (m * Cal.ns_per_s) (10 ^ Z.of_nat k) in
      if Cal.in_bounds ns then Some ns else None
  | RInf _ => None
  end.

Definition to_numeric_str (s : string) : option (Z + rfloat) :=
  match Str.parse_signed s with
  | Some z => Some (inl z)
  | None => option_map inr (parse_float s)
  end.

Definition epoch_ns_str (s : string) : option Z :=
  match to_numeric_str s with
  | Some (inl z) => Cal.ns_of_seconds z
  | Some (inr f) => epoch_ns f
  | None => None
  end.

(** Literal patterns only: any pattern with a metacharacter is refused. *)
Definition re_search (pat s : string) : option bool :=
  if regex_plain pat then Some (Str.icontains pat s) else None.

(** Stable insertion sort, larger counts first. *)
Fixpoint insert_desc {K : Type} (x : K * nat) (l : list (K * nat))
  : list (K * nat) :=
  match l with
  | [] => [x]
  | y :: r =>
      if (snd y <=? snd x)%nat then x :: y :: r else y :: insert_desc x r
  end.

Fixpoint sort_desc {K : Type} (l : list (K * nat)) : list (K * nat) :=
  match l with
  | [] => []
  | x :: r => insert_desc x (sort_desc r)
  end.

End Ref.

#[export] Instance reference_float : FloatType := {| float64 := Ref.rfloat |}.

#[export] Instance reference_backend : Backend := {|
  csv_int := Str.parse_signed;
  csv_float := Ref.parse_float;
  str_to_numeric := Ref.to_numeric_str;
  str_epoch_ns := Ref.epoch_ns_str;
  float_of_int := fun z => Ref.RDec z 0;
  float_is_finite := Ref.is_finite;
  float_to_int := Ref.to_int;
  float_str := Ref.to_str;
  float_eqb := Ref.feqb;
  float_epoch_ns := Ref.epoch_ns;
  re_search_icase := Ref.re_search;
  sort_counts := @Ref.sort_desc
|}.

(* ------------------------------------------------------------------------- *)
(** ** The frames of one ingestion *)
(* ------------------------------------------------------------------------- *)

Section UploadFrames.

Context {FT : FloatType} {B : Backend}.

(** The seven columns of the frame read. *)
Record raw_columns : Type := {
  r_host : column;
  r_dash : column;
  r_epoch : column;
  r_method : column;
  r_url : column;
  r_status : column;
  r_bytes : column
}.

Definition columns_of (text : string) : raw_columns :=
  {| r_host := infer_column (Csv.column_tokens text 0);
     r_dash := infer_column (Csv.column_tokens text 1);
     r_epoch := infer_column (Csv.column_tokens text 2);
     r_method := infer_column (Csv.column_tokens text 3);
     r_url := infer_column (Csv.column_tokens text 4);
     r_status := infer_column (Csv.column_tokens text 5);
     r_bytes := infer_column (Csv.column_tokens text 6) |}.

Variable rc : raw_columns.

Definition col_request : column := map2 concat_request (r_method rc) (r_url rc).
Definition col_dt : column := map to_datetime (r_epoch rc).
Definition col_time : column := map strftime_cell col_dt.
Definition col_status : result column :=
  astype_int (map fillna0 (to_numeric (r_status rc))).
Definition col_bytes : column := map fillna0 (to_numeric (r_bytes rc)).

Definition frame_raw (st by_ : column) : dataframe :=
  [("host", r_host rc); ("dash", r_dash rc); ("time_epoch", r_epoch rc);
   ("method", r_method rc); ("url", r_url rc); ("status", st);
   ("bytes", by_)].

(** The frame read, then the frame after each of the in-place statements. *)
Definition frame0 : dataframe := frame_raw (r_status rc) (r_bytes rc).
Definition frame1 : dataframe := frame0 ++ [("request", col_request)].
Definition frame2 : dataframe := frame1 ++ [("dt", col_dt)].
Definition frame3 : dataframe := frame2 ++ [("time", col_time)].
Definition frame4 (st : column) : dataframe :=
  frame_raw st (r_bytes rc)
  ++ [("request", col_request); ("dt", col_dt); ("time", col_time)].
Definition frame5 (st : column) : dataframe :=
  frame_raw st col_bytes
  ++ [("request", col_request); ("dt", col_dt); ("time", col_time)].

(** The projection published on success: the Log Table. *)
Definition frame6 (st : column) : dataframe :=
  [("host", r_host rc); ("time", col_time); ("request", col_request);
   ("status", st); ("bytes", col_bytes); ("dt", col_dt)].

Definition outcome : run :=
  match col_status with
  | Ok st =>
      {| writes := [frame0; frame1; frame2; frame3;
                    frame4 st; frame5 st; frame6 st];
         reply := Loaded (nrows (frame6 st)) |}
  | Raise e =>
      {| writes := [frame0; frame1; frame2; frame3];
         reply := ServerError e |}
  end.

End UploadFrames.

(* ------------------------------------------------------------------------- *)
(** ** Vocabulary of the statements *)
(* ------------------------------------------------------------------------- *)

(** A host configuration, and one in another time zone. *)
Definition env_utc : host_env := {| tz_offset := 0 |}.
Definition env_est : host_env := {| tz_offset := -18000 |}.

Section Vocabulary.

Context {FT : FloatType} {B : Backend}.

(** Every column of the frame read has one cell per accepted line. *)
Definition aligned (rc : raw_columns) (n : nat) : Prop :=
  List.length (r_host rc) = n /\ List.length (r_dash rc) = n
  /\ List.length (r_epoch rc) = n /\ List.length (r_method rc) = n
  /\ List.length (r_url rc) = n /\ List.length (r_status rc) = n
  /\ List.length (r_bytes rc) = n.

(** What a row of the published frame is made of. *)
Definition row_of (rc : raw_columns) (st : column) (i : nat) (r : record) : Prop :=
  nth_error (r_host rc) i = Some (host r)
  /\ nth_error (col_time rc) i = Some (time r)
  /\ nth_error (col_request rc) i = Some (CStr (request r))
  /\ nth_error st i = Some (CInt (status r))
  /\ nth_error (col_bytes rc) i = Some (bytes r)
  /\ nth_error (col_dt rc) i
     = Some (match dt r with Some ns => CTime ns | None => CNull end).

Definition number_or_null (c : cell) : Prop := is_number c = true \/ c = CNull.

(** The [dt] cell of a record. *)
Definition dt_cell (o : option Z) : cell :=
  match o with Some ns => CTime ns | None => CNull end.

(** The rows a reader sees: none before the first ingestion. *)
Definition rows_of (g : option table) : table :=
  match g with Some t => t | None => [] end.

Definition has_time (r : record) : bool := is_some (dt r).

(** The records a literal, case-insensitive search for [q] returns. *)
Definition hits (q : string) (t : table) : table :=
  if String.eqb q "" then []
  else firstn 50 (filter (fun r => Str.icontains q (request r)) t).

(** The Log Table published by ingesting [text] over an empty store; [None]
    when the ingestion did not end on a Log Table. *)
Definition table_of (text : string) : option table :=
  match store_after None (upload env_utc (Some text)) with
  | Some df => log_table df
  | None => None
  end.

End Vocabulary.

(** The float64 zero written by [fillna(0)] casts to the integer zero. *)
Definition float_zero_law {FT : FloatType} (B : Backend) : Prop :=
  float_to_int (float_of_int 0) = 0%Z.

(** A pattern without metacharacter matches as a literal, letter case
    ignored. *)
Definition re_literal_law {FT : FloatType} (B : Backend) : Prop :=
  forall q s, regex_plain q = true ->
              re_search_icase q s = Some (Str.icontains q s).

Definition count_is {K : Type} (c : nat) (kv : K * nat) : bool :=
  (snd kv =? c)%nat.

Definition by_count_desc {K : Type} (a b : K * nat) : Prop :=
  (snd b <= snd a)%nat.

(** What [sort_values(ascending=False)] guarantees: the entries are
    rearranged, larger counts first. *)
Definition sort_contract {FT : FloatType} (B : Backend) : Prop :=
  forall (K : Type) (l : list (K * nat)),
    Permutation (sort_counts K l) l
    /\ StronglySorted by_count_desc (sort_counts K l).

(** A stable sort keeps the entries of equal count in their input order. *)
Definition sort_stable {FT : FloatType} (B : Backend) : Prop :=
  forall (K : Type) (l : list (K * nat)) (c : nat),
    filter (count_is c) (sort_counts K l) = filter (count_is c) l.

(** Position of the first occurrence of a key in a list. *)
Fixpoint first_index {K : Type} (eqb : K -> K -> bool) (k : K) (l : list K)
  : nat :=
  match l with
  | [] => 0
  | x :: r => if eqb x k then 0 else S (first_index eqb k r)
  end.

(** The ranking keys of the two top-5 aggregates: the non-null hosts, and
    the non-null second tokens of the requests. *)
Definition host_keys {FT : FloatType} (t : table) : list cell :=
  non_null (map host t).

Definition token_cell {FT : FloatType} (r : record) : cell :=
  match Str.split_ws (request r) with
  | _ :: tok :: _ => CStr tok
  | _ => CNull
  end.

Definition endpoint_keys {FT : FloatType} (t : table) : list cell :=
  non_null (map token_cell t).

Definition render_entry {FT : FloatType} {B : Backend} (kv : cell * nat)
  : string * nat :=
  (astype_str (fst kv), snd kv).

(** What it means for [ranked] to be the top five of [keys]. *)
Definition ranking_of {K : Type} (eqb : K -> K -> bool) (keys : list K)
    (ranked : list (K * nat)) : Prop :=
  (List.length ranked <= 5)%nat
  /\ List.length ranked = Nat.min 5 (List.length (distinct K eqb keys))
  /\ StronglySorted by_count_desc ranked
  /\ (forall c,
        StronglySorted lt
          (map (fun kv => first_index eqb (fst kv) keys)
               (filter (count_is c) ranked)))
  /\ (forall k c, In (k, c) ranked ->
        In k keys /\ c = count_key K eqb k keys)
  /\ (forall kv kv', In kv ranked ->
        In kv' (counts_in_order K eqb keys) -> ~ In kv' ranked ->
        (snd kv' <= snd kv)%nat).

(* ------------------------------------------------------------------------- *)
(** ** Example inputs *)
(* ------------------------------------------------------------------------- *)

(** Text helpers for examples: fields joined by tabs, lines ended by '\n'. *)
Definition tsv_line (fs : list string) : string :=
  (String.concat (String Str.tab "") fs ++ String Str.nl "")%string.

Definition sample_line : string :=
  tsv_line ["10.0.0.1"; "-"; "804571304"; "GET"; "/shuttle/missions/sts-1";
            "200"; "1024"].

(** A well-formed line followed by a line of six fields. *)
Definition short_line_text : string :=
  (sample_line
   ++ tsv_line ["10.0.0.2"; "-"; "804571305"; "GET"; "/index.html"; "200"])%string.

Definition short_line : string :=
  String.concat (String Str.tab "")
    ["10.0.0.2"; "-"; "804571305"; "GET"; "/index.html"; "200"].

(** A line whose status field is an infinity: the float column it makes
    cannot be cast to int. *)
Definition inf_status_text : string :=
  (sample_line
   ++ tsv_line ["10.0.0.2"; "-"; "804571305"; "GET"; "/index.html"; "inf";
                "1024"])%string.

(** The table published by ingesting [sample_line] alone. *)
Definition sample_store : store (FT:=reference_float) :=
  store_after None (upload (B:=reference_backend) env_utc (Some sample_line)).

(** A row with an empty method and a numeric url. *)
Definition odd_request_text : string :=
  tsv_line ["10.0.0.3"; "-"; "804571306"; ""; "007"; "200"; "1"].

(** A row whose host field is empty. *)
Definition null_host_text : string :=
  (sample_line
   ++ tsv_line [""; "-"; "804571305"; "GET"; "/index.html"; "200"; "1024"])%string.

(** A row whose status is not a number and whose size is the dash of the
    common log format. *)
Definition dash_bytes_text : string :=
  (sample_line
   ++ tsv_line ["10.0.0.2"; "-"; "804571305"; "GET"; "/index.html"; "abc";
                "-"])%string.


(** Six hosts, each seen once, in the order A to F. *)
Definition six_hosts_text : string :=
  String.concat ""
    (map (fun h => tsv_line [h; "-"; "804571304"; "GET"; "/index.html"; "200";
                             "1024"])
         ["A"; "B"; "C"; "D"; "E"; "F"]).

(** A request made of a method and a url of one space: split on whitespace
    it has a single token. *)
Definition blank_url_text : string :=
  (sample_line
   ++ tsv_line ["10.0.0.2"; "-"; "804571305"; "GET"; " "; "200"; "1024"])%string.

(* ------------------------------------------------------------------------- *)
(** ** The analyst: [_row_to_log_line] and [analyze] *)
(* ------------------------------------------------------------------------- *)

Module Py.

(** [s.replace(pat, '')] for a non-empty [pat]: the occurrences are removed
    from left to right, without overlap. [skip] counts the characters of the
    current occurrence still to drop. *)
Fixpoint remove_aux (pat : string) (skip : nat) (s : string) : string :=
  match s with
  | EmptyString => EmptyString
  | String c s' =>
      match skip with
      | S k => remove_aux pat k s'
      | O =>
          if String.prefix pat s
          then remove_aux pat (String.length pat - 1) s'
          else String c (remove_aux pat 0 s')
      end
  end.

Definition remove (pat s : string) : string := remove_aux pat 0 s.

Definition backtick : ascii := Ascii.ascii_of_nat 96.

Definition fence : string := String backtick (String backtick (String backtick "")).

Definition quote : string := String Str.dquote "".

Definition newline : string := String Str.nl "".

End Py.

(** [l1] is [l2] with some elements left out, the order kept. *)
Inductive subseq {A : Type} : list A -> list A -> Prop :=
| subseq_nil : subseq [] []
| subseq_skip (x : A) (l1 l2 : list A) : subseq l1 l2 -> subseq l1 (x :: l2)
| subseq_take (x : A) (l1 l2 : list A) :
    subseq l1 l2 -> subseq (x :: l1) (x :: l2).

(** What the model service gives for one model name: the call raises, or it
    returns a response whose [.text] is a string, or one whose [.text]
    raises. *)
Inductive model_answer : Type :=
| NoAnswer (err : string)
| Answer (text : string)
| Unreadable (err : string).

(** What [analyze] takes from outside: [DataFrame.sample(n, random_state=42)],
    [GenerativeModel(name).generate_content(prompt)] and [json.loads]. *)
Record services (J : Type) : Type := {
  sample : forall A : Type, nat -> list A -> list A;
  generate : string -> string -> model_answer;   (* prompt, model name *)
  json_loads : string -> string + J
}.

Arguments sample {J} s A n l.
Arguments generate {J} s prompt name.
Arguments json_loads {J} s text.

(** The exception caught by the outer [except] of [analyze]. *)
Inductive failure : Type :=
| PandasFailure (e : exn)
| AllModelsFailed (last_error : string)
| ResponseFailure (err : string)
| JsonFailure (err : string).

Inductive analyze_reply (J : Type) : Type :=
| NoLogsLoaded                 (* 400, 'No logs loaded.' *)
| ApiKeyNotSet                 (* 500, 'GEMINI_API_KEY not set in .env' *)
| Analysis (j : J)             (* 200, the parsed answer of the model *)
| ManualReview (f : failure).  (* 200, 'Manual Review Required' *)

Arguments NoLogsLoaded {J}.
Arguments ApiKeyNotSet {J}.
Arguments Analysis {J} j.
Arguments ManualReview {J} f.

Definition ANALYZE_SYSTEM_PROMPT : string :=
  "You are a Cyber Security Analyst. Analyze these log lines. Return a VALID JSON object with keys: 'patterns_detected' (list of strings like 'SQL Injection'), 'risk_level', and 'summary'. Do NOT use markdown code blocks. Just return the raw JSON string.".

Definition possible_models : list string :=
  ["gemini-1.5-flash"; "gemini-1.5-flash-001"; "gemini-1.5-pro"; "gemini-pro";
   "gemini-1.0-pro"].

(** The pattern of the suspicious-request filter and its alternatives. *)
Definition keyword_pattern : string := "admin|login|UNION|SELECT|etc/passwd".

Definition keywords : list string :=
  ["admin"; "login"; "UNION"; "SELECT"; "etc/passwd"].

(** The loop over the model names: the first call that does not raise ends
    it; [last_error] is the message of the latest call that raised. *)
Fixpoint first_response (ask : string -> model_answer) (models : list string)
    (last_error : string) : string + model_answer :=
  match models with
  | [] => inl last_error
  | m :: rest =>
      match ask m with
      | NoAnswer err => first_response ask rest err
      | a => inr a
      end
  end.

(** [text = response.text.strip()], then the removal of a code fence when
    the text starts with one. *)
Definition clean_response (text : string) : string :=
  let t := Str.strip text in
  if String.prefix Py.fence t
  then Str.strip (Py.remove Py.fence (Py.remove (Py.fence ++ "json") t))
  else t.

(** [if not api_key]: a missing variable and an empty one are the same. *)
Definition key_usable (api_key : option string) : bool :=
  match api_key with
  | Some (String _ _) => true
  | _ => false
  end.

Section Analyst.

Context {FT : FloatType} {B : Backend}.

(** [_row_to_log_line]; every key is present in a row of the Log Table. *)
Definition _row_to_log_line (r : record) : string :=
  astype_str (host r) ++ " - " ++ astype_str (time r) ++ " " ++ Py.quote
  ++ request r ++ Py.quote ++ " " ++ Str.of_Z (status r).

Definition is_failure (r : record) : bool := (400 <=? status r)%Z.

(** The rows [analyze] samples from: a status of 400 or more, or a request
    matching the keyword pattern; when there is none, the rows with a status
    of 400 or more. *)
Definition suspicious (t : table) : result table :=
  mask <- str_contains keyword_pattern (map request t) ;;
  let s := select_mask t (map2 orb (map is_failure t) mask) in
  Ok (match s with
      | [] => filter is_failure t
      | _ => s
      end).

Definition log_block {J : Type} (sv : services J) (s : table) : string :=
  String.concat Py.newline
    (map _row_to_log_line (sample sv record (Nat.min 15 (List.length s)) s)).

Definition full_prompt (block : string) : string :=
  ANALYZE_SYSTEM_PROMPT ++ Py.newline ++ Py.newline ++ "Logs to analyze:"
  ++ Py.newline ++ block.

(** The handler [analyze]; [g] is the global, [api_key] the value of
    GEMINI_API_KEY in the environment. *)
Definition analyze {J : Type} (sv : services J) (g : option table)
    (api_key : option string) : analyze_reply J :=
  match g with
  | None | Some [] => NoLogsLoaded
  | Some t =>
      match suspicious t with
      | Raise e => ManualReview (PandasFailure e)
      | Ok s =>
          let block := log_block sv s in
          if negb (key_usable api_key) then ApiKeyNotSet
          else
            match first_response (generate sv (full_prompt block))
                                 possible_models "" with
            | inl err => ManualReview (AllModelsFailed err)
            | inr (NoAnswer err) => ManualReview (AllModelsFailed err)
            | inr (Unreadable err) => ManualReview (ResponseFailure err)
            | inr (Answer text) =>
                match json_loads sv (clean_response text) with
                | inl err => ManualReview (JsonFailure err)
                | inr j => Analysis j
                end
            end
      end
  end.

End Analyst.

(** The keyword pattern matches a string holding one of the keywords,
    letter case ignored. *)
Definition re_keywords_law {FT : FloatType} (B : Backend) : Prop :=
  forall s,
    re_search_icase keyword_pattern s
    = Some (existsb (fun k => Str.icontains k s) keywords).

(** [sample] without replacement: [n] rows of the frame, each taken once. *)
Definition sample_contract {J : Type} (sv : services J) : Prop :=
  forall (A : Type) (n : nat) (l : list A),
    (n <= List.length l)%nat ->
    List.length (sample sv A n l) = n
    /\ exists rest, Permutation (sample sv A n l ++ rest) l.

(** A regular expression engine for alternatives of literals. *)
Definition re_search_alternatives (pat s : string) : option bool :=
  let parts := Str.split_on "|" pat in
  if forallb regex_plain parts
  then Some (existsb (fun k => Str.icontains k s) parts)
  else None.

(** The reference back-end with that engine. *)
Definition analyst_backend : Backend (FT:=reference_float) := {|
  csv_int := Str.parse_signed;
  csv_float := Ref.parse_float;
  str_to_numeric := Ref.to_numeric_str;
  str_epoch_ns := Ref.epoch_ns_str;
  float_of_int := fun z => Ref.RDec z 0;
  float_is_finite := Ref.is_finite;
  float_to_int := Ref.to_int;
  float_str := Ref.to_str;
  float_eqb := Ref.feqb;
  float_epoch_ns := Ref.epoch_ns;
  re_search_icase := re_search_alternatives;
  sort_counts := @Ref.sort_desc
|}.

(** Services for examples: the first [n] rows as the sample, a service that
    knows one model only, and a parser that takes any text as the answer. *)
Definition example_services : services string := {|
  sample := fun A n l => firstn n l;
  generate := fun prompt name =>
    if String.eqb name "gemini-pro"
    then Answer (Py.fence ++ "json" ++ Py.newline ++ "{}" ++ Py.newline ++ Py.fence)
    else NoAnswer ("404 " ++ name);
  json_loads := fun text => inr text
|}.


(** The dtypes [infer_column] gives a column, with the cells each allows. *)
Inductive dtype : Type := Int64 | Float64 | BoolType | ObjectType.

Definition has_dtype {FT : FloatType} (d : dtype) (c : cell) : bool :=
  match d, c with
  | Int64, CInt _ => true
  | Float64, (CFloat _ | CNull) => true
  | BoolType, CBool _ => true
  | ObjectType, (CStr _ | CNull) => true
  | _, _ => false
  end.

(** A text of two blank lines. *)
Definition blank_text : string :=
  String Str.nl (String Str.space (String Str.nl "")).

(** Three records: a plain one, one whose request names the admin area, and
    one that failed. *)
Definition example_table : table (FT:=reference_float) :=
  [ {| host := CStr "10.0.0.1"; time := CStr "01/Jul/1995:04:01:44";
       request := "GET /index.html"; status := 200;
       bytes := CInt 1024; dt := Some 804571304000000000%Z |};
    {| host := CStr "10.0.0.2"; time := CStr "01/Jul/1995:04:01:45";
       request := "GET /Admin/panel"; status := 200;
       bytes := CInt 512; dt := Some 804571305000000000%Z |};
    {| host := CNull; time := CNull;
       request := "GET /missing"; status := 404;
       bytes := CInt 0; dt := None |} ].

(** Services whose model call raises for every model. *)
Definition offline_services : services string := {|
  sample := fun A n l => firstn n l;
  generate := fun prompt name => NoAnswer ("404 " ++ name);
  json_loads := fun text => inr text
|}.

(* ------------------------------------------------------------------------- *)
(** ** Lists: auxiliary facts *)
(* ------------------------------------------------------------------------- *)

Lemma filter_partition_length {A : Type} (f : A -> bool) (l : list A) :
  (List.length (filter f l)
   + List.length (filter (fun x => negb (f x)) l) = List.length l)%nat.
Proof.
  induction l as [|x r IH]; simpl; [reflexivity|].
  destruct (f x); simpl; lia.
Qed.

Lemma filter_length_bound {A : Type} (f : A -> bool) (l : list A) :
  (List.length (filter f l) <= List.length l)%nat.
Proof.
  pose proof (filter_partition_length f l); lia.
Qed.

Lemma all_some_length {A : Type} (l : list (option A)) (r : list A) :
  all_some l = Some r -> List.length r = List.length l.
Proof.
  revert r; induction l as [|o l IH]; intros r H; simpl in H.
  - now inversion H.
  - destruct o as [x|]; [|discriminate].
    destruct (all_some l) as [r'|] eqn:E; simpl in H; [|discriminate].
    inversion H; subst; simpl; f_equal; now apply IH.
Qed.

Lemma all_some_nth {A : Type} (l : list (option A)) (r : list A) (i : nat) :
  all_some l = Some r ->
  nth_error l i = option_map Some (nth_error r i).
Proof.
  revert r i; induction l as [|o l IH]; intros r i H; simpl in H.
  - inversion H; subst; now destruct i.
  - destruct o as [x|]; [|discriminate].
    destruct (all_some l) as [r'|] eqn:E; simpl in H; [|discriminate].
    inversion H; subst; destruct i; simpl; [reflexivity|now apply IH].
Qed.

(* ------------------------------------------------------------------------- *)
(** ** Calendar *)
(* ------------------------------------------------------------------------- *)

Lemma civil_ok_from_sound (n : nat) (d0 d : Z) :
  Cal.civil_ok_from n d0 = true ->
  (d0 <= d < d0 + Z.of_nat n)%Z -> Cal.civil_ok d = true.
Proof.
  revert d0; induction n as [|n IH]; intros d0 H Hd; [lia|].
  cbn [Cal.civil_ok_from] in H. apply andb_true_iff in H; destruct H as [H0 H1].
  destruct (Z.eq_dec d d0) as [->|Hne]; [exact H0|].
  apply (IH (d0 + 1)%Z); [exact H1|lia].
Qed.

(** From 1900 to 2100 the calendar conversion inverts the day count and
    yields a month in 1..12 and a day in 1..31. *)
Lemma civil_of_days_inverse (d : Z) :
  (Cal.day_min <= d <= Cal.day_max)%Z -> Cal.civil_ok d = true.
Proof.
  intros H.
  assert (A : Cal.civil_ok_from (Z.to_nat 73050) Cal.day_min = true)
    by (vm_compute; reflexivity).
  apply (civil_ok_from_sound _ _ _ A).
  rewrite Z2Nat.id by lia.
  unfold Cal.day_min, Cal.day_max in *; lia.
Qed.

(* ------------------------------------------------------------------------- *)
(** ** Record parser *)
(* ------------------------------------------------------------------------- *)

Section ParserFacts.

Context {FT : FloatType} {B : Backend}.

Lemma infer_column_length (toks : list string) :
  List.length (infer_column toks) = List.length toks.
Proof.
  unfold infer_column.
  destruct (all_some (map cell_int toks)) eqn:E1.
  { apply all_some_length in E1; now rewrite length_map in E1. }
  destruct (all_some (map cell_float toks)) eqn:E2.
  { apply all_some_length in E2; now rewrite length_map in E2. }
  destruct (all_some (map cell_bool toks)) eqn:E3.
  { apply all_some_length in E3; now rewrite length_map in E3. }
  now rewrite length_map.
Qed.

Lemma column_tokens_length (text : string) (j : nat) :
  List.length (Csv.column_tokens text j) = List.length (Csv.accepted_lines text).
Proof.
  unfold Csv.column_tokens, Csv.rows; now rewrite !length_map.
Qed.

(** The frame read from a text, column by column. *)
Lemma read_csv_columns (text : string) :
  read_csv text =
  [("host", infer_column (Csv.column_tokens text 0));
   ("dash", infer_column (Csv.column_tokens text 1));
   ("time_epoch", infer_column (Csv.column_tokens text 2));
   ("method", infer_column (Csv.column_tokens text 3));
   ("url", infer_column (Csv.column_tokens text 4));
   ("status", infer_column (Csv.column_tokens text 5));
   ("bytes", infer_column (Csv.column_tokens text 6))].
Proof. reflexivity. Qed.

Lemma read_csv_nrows (text : string) :
  nrows (read_csv text) = List.length (Csv.accepted_lines text).
Proof.
  rewrite read_csv_columns; simpl.
  now rewrite infer_column_length, column_tokens_length.
Qed.

Lemma keeps_width7 (l : string) :
  Csv.keeps 7 l = true <->
  Csv.is_blank_line l = false /\ (Csv.ncols l <= 7)%nat.
Proof.
  unfold Csv.keeps, Csv.is_bad_line.
  rewrite andb_true_iff, !negb_true_iff, Nat.ltb_ge. tauto.
Qed.

End ParserFacts.

(** C1, as stated, fails: a line of six tab-separated columns is not
    dropped. It is accepted as a record, the missing [bytes] field is null in
    the frame read, and the ingestion reports two records for a text with
    one seven-column line. *)
Lemma C1_short_line_is_accepted :
  In short_line (Str.lines short_line_text)
  /\ Csv.ncols short_line = 6%nat
  /\ In short_line (Csv.accepted_lines short_line_text)
  /\ df_get "bytes" (read_csv (B:=reference_backend) short_line_text)
     = Ok [CFloat (Ref.RDec 1024 0); CNull]
  /\ reply (upload (B:=reference_backend) env_utc (Some short_line_text))
     = Loaded 2
  /\ List.length (filter (fun l => (Csv.ncols l =? 7)%nat)
                         (Str.lines short_line_text)) = 1%nat.
Proof.
  split; [vm_compute; right; left; reflexivity|].
  split; [reflexivity|].
  split; [vm_compute; right; left; reflexivity|].
  repeat split; vm_compute; reflexivity.
Qed.

(** C1, amended: on a quote-free text whose first record has at most seven
    fields, the lines dropped are exactly the blank lines and the lines of
    more than seven tab-separated columns; every other line, also one of
    fewer than seven columns, is accepted (its missing trailing fields
    closed as empty, hence null, fields). The accepted count is the row count
    of the frame read, it is at most the line count, and dropped plus
    accepted lines make up the input lines. *)
Theorem C1_wide_and_blank_lines_dropped
    {FT : FloatType} {B : Backend} (text : string)
    (Hplain : Csv.plain_text text = true)
    (Hfirst : Csv.width_of text = 7%nat) :
  (forall l, In l (Str.lines text) ->
     (In l (Csv.accepted_lines text) <->
      Csv.is_blank_line l = false /\ (Csv.ncols l <= 7)%nat)
     /\ (In l (Csv.dropped_lines text) <->
         Csv.is_blank_line l = true \/ (7 < Csv.ncols l)%nat))
  /\ Csv.rows text
     = map (fun l => Csv.pad 7 (Csv.fields l)) (Csv.accepted_lines text)
  /\ nrows (read_csv text) = List.length (Csv.accepted_lines text)
  /\ (List.length (Csv.accepted_lines text) <= List.length (Str.lines text))%nat
  /\ (List.length (Csv.dropped_lines text)
      + List.length (Csv.accepted_lines text)
      = List.length (Str.lines text))%nat.
Proof.
  split; [|split; [|split; [|split]]].
  - intros l Hl; split; split.
    + unfold Csv.accepted_lines; rewrite Hfirst, filter_In.
      intros [_ Hk]; now apply keeps_width7 in Hk.
    + unfold Csv.accepted_lines; rewrite Hfirst, filter_In.
      intros [Hb Hc]; split; [assumption|]; now apply keeps_width7.
    + unfold Csv.dropped_lines; rewrite Hfirst, filter_In.
      intros [_ Hk]; apply negb_true_iff in Hk.
      destruct (Csv.is_blank_line l) eqn:Eb; [now left|right].
      destruct (le_lt_dec (Csv.ncols l) 7) as [Hle|Hlt]; [|assumption].
      assert (Csv.keeps 7 l = true) by (apply keeps_width7; auto).
      congruence.
    + unfold Csv.dropped_lines; rewrite Hfirst, filter_In.
      intros Hd; split; [assumption|]; apply negb_true_iff.
      destruct (Csv.keeps 7 l) eqn:Ek; [|reflexivity].
      apply keeps_width7 in Ek; destruct Ek as [Eb Hc].
      destruct Hd as [Hd|Hd]; [congruence|lia].
  - unfold Csv.rows; rewrite Hfirst; reflexivity.
  - apply read_csv_nrows.
  - apply filter_length_bound.
  - unfold Csv.dropped_lines, Csv.accepted_lines.
    pose proof (filter_partition_length
                  (Csv.keeps (Csv.width_of text)) (Str.lines text)); lia.
Qed.

Lemma C1_wide_and_blank_lines_dropped_witness :
  Csv.plain_text short_line_text = true
  /\ Csv.width_of short_line_text = 7%nat
  /\ nrows (read_csv (B:=reference_backend) short_line_text) = 2%nat.
Proof.
  split; [reflexivity|]. split; [reflexivity|].
  destruct (C1_wide_and_blank_lines_dropped (B:=reference_backend)
              short_line_text eq_refl eq_refl) as (_ & _ & H & _).
  rewrite H. reflexivity.
Defined.

Section UploadFacts.

Context {FT : FloatType} {B : Backend}.

Lemma run_steps_frames (rc : raw_columns) :
  run_steps upload_steps (frame0 rc) =
  match col_status rc with
  | Ok st => ([frame1 rc; frame2 rc; frame3 rc;
               frame4 rc st; frame5 rc st; frame6 rc st], None)
  | Raise e => ([frame1 rc; frame2 rc; frame3 rc], Some e)
  end.
Proof.
  unfold col_status.
  destruct (astype_int (map fillna0 (to_numeric (r_status rc)))) as [st|e] eqn:E.
  - cbn. rewrite E. reflexivity.
  - cbn. rewrite E. reflexivity.
Qed.

(** [upload] on an existing file, statement by statement. *)
Lemma upload_outcome (env : host_env) (text : string) :
  upload env (Some text) = outcome (columns_of text).
Proof.
  unfold upload, outcome.
  change (read_csv text) with (frame0 (columns_of text)).
  rewrite run_steps_frames.
  destruct (col_status (columns_of text)); reflexivity.
Qed.

Lemma map2_length {X Y Z' : Type} (f : X -> Y -> Z') (l1 : list X) (l2 : list Y) :
  List.length l1 = List.length l2 ->
  List.length (map2 f l1 l2) = List.length l1.
Proof.
  revert l2; induction l1 as [|x r IH]; intros [|y r2] H; simpl in *;
    try discriminate; [reflexivity|].
  f_equal; apply IH; now inversion H.
Qed.

Lemma map2_nth {X Y Z' : Type} (f : X -> Y -> Z') (l1 : list X) (l2 : list Y)
    (i : nat) (x : X) (y : Y) :
  nth_error l1 i = Some x -> nth_error l2 i = Some y ->
  nth_error (map2 f l1 l2) i = Some (f x y).
Proof.
  revert l2 i; induction l1 as [|a r IH]; intros [|b r2] [|i] H1 H2;
    simpl in *; try discriminate.
  - now inversion H1; inversion H2.
  - now apply IH.
Qed.

Lemma astype_int_cells (col st : column) :
  astype_int col = Ok st ->
  Forall2 (fun c c' => astype_int_cell c = Ok c') col st.
Proof.
  revert st; induction col as [|c r IH]; intros st H; simpl in H.
  - inversion H; constructor.
  - destruct (astype_int_cell c) as [c'|] eqn:Ec; simpl in H; [|discriminate].
    destruct (astype_int r) as [r'|] eqn:Er; simpl in H; [|discriminate].
    inversion H; subst; constructor; auto.
Qed.

Lemma Forall2_nth_r {X Y : Type} (R : X -> Y -> Prop) (l1 : list X)
    (l2 : list Y) (i : nat) (y : Y) :
  Forall2 R l1 l2 -> nth_error l2 i = Some y ->
  exists x, nth_error l1 i = Some x /\ R x y.
Proof.
  intros H; revert i; induction H as [|a b r1 r2 Hab _ IH]; intros [|i] Hn;
    simpl in *; try discriminate.
  - inversion Hn; subst; now exists a.
  - now apply IH.
Qed.

Lemma Forall2_length_eq {X Y : Type} (R : X -> Y -> Prop) (l1 : list X)
    (l2 : list Y) :
  Forall2 R l1 l2 -> List.length l1 = List.length l2.
Proof. induction 1; simpl; congruence. Qed.

Lemma astype_int_cell_int (c c' : cell) :
  astype_int_cell c = Ok c' -> exists z, c' = CInt z.
Proof.
  destruct c; simpl; intros H; try discriminate.
  - inversion H; eauto.
  - destruct (float_is_finite f); inversion H; eauto.
  - inversion H; eauto.
Qed.

Lemma to_datetime_shape (c : cell) :
  (exists ns, to_datetime c = CTime ns) \/ to_datetime c = CNull.
Proof.
  destruct c; simpl; eauto.
  - destruct (Cal.ns_of_seconds z); eauto.
  - destruct (float_epoch_ns f); eauto.
  - destruct (str_epoch_ns s); eauto.
Qed.

End UploadFacts.

Lemma nth_error_map_seq {A : Type} (f : nat -> A) (a n i : nat) :
  nth_error (map f (seq a n)) i
  = if (i <? n)%nat then Some (f (a + i)%nat) else None.
Proof.
  revert a i; induction n as [|n IH]; intros a i; simpl.
  - now destruct i.
  - destruct i as [|i]; simpl.
    + now rewrite Nat.add_0_r.
    + rewrite IH. replace (S a + i)%nat with (a + S i)%nat by lia.
      reflexivity.
Qed.

Lemma all_some_map_seq {A : Type} (f : nat -> option A) (a n : nat) :
  (forall i, (a <= i < a + n)%nat -> exists r, f i = Some r) ->
  exists t, all_some (map f (seq a n)) = Some t.
Proof.
  revert a; induction n as [|n IH]; intros a H; simpl.
  - now exists [].
  - destruct (H a) as [r Hr]; [lia|]. rewrite Hr.
    destruct (IH (S a)) as [t Ht]; [intros i Hi; apply H; lia|].
    rewrite Ht; simpl; eauto.
Qed.

(** The rows of [all_some (map f (seq 0 n))]. *)
Lemma all_some_seq_rows {A : Type} (f : nat -> option A) (n : nat) (t : list A) :
  all_some (map f (seq 0 n)) = Some t ->
  List.length t = n /\
  forall i r, nth_error t i = Some r -> f i = Some r.
Proof.
  intros H; split.
  - apply all_some_length in H. now rewrite length_map, length_seq in H.
  - intros i r Hr.
    pose proof (all_some_nth _ _ i H) as Hn.
    rewrite Hr, nth_error_map_seq in Hn; simpl in Hn.
    destruct (i <? n)%nat; [now inversion Hn|discriminate].
Qed.

Section TableFacts.

Context {FT : FloatType} {B : Backend}.

Lemma columns_of_aligned (text : string) :
  aligned (columns_of text) (List.length (Csv.accepted_lines text)).
Proof.
  unfold aligned, columns_of; simpl.
  repeat split; now rewrite infer_column_length, column_tokens_length.
Qed.

Lemma to_numeric_length (col : column) :
  List.length (to_numeric col) = List.length col.
Proof.
  unfold to_numeric. destruct (existsb is_str col); [|reflexivity].
  destruct (forallb is_int (map parse_numeric_cell col));
    now rewrite ?length_map.
Qed.

Lemma col_status_length (rc : raw_columns) (st : column) :
  col_status rc = Ok st -> List.length st = List.length (r_status rc).
Proof.
  intros H; apply astype_int_cells, Forall2_length_eq in H.
  now rewrite length_map, to_numeric_length in H.
Qed.

Lemma row_at_frame6 (rc : raw_columns) (st : column) (i : nat) (r : record) :
  row_at (frame6 rc st) i = Some r -> row_of rc st i r.
Proof.
  unfold row_at, row_of; cbn [frame6 df_get String.eqb Ascii.eqb Bool.eqb].
  cbn.
  destruct (nth_error (r_host rc) i) as [ch|]; [|discriminate].
  destruct (nth_error (col_time rc) i) as [ct|]; [|discriminate].
  destruct (nth_error (col_request rc) i) as [[| | | |rq|]|]; try discriminate.
  destruct (nth_error st i) as [[|z| | | |]|]; try discriminate.
  destruct (nth_error (col_bytes rc) i) as [cb|]; [|discriminate].
  destruct (nth_error (col_dt rc) i) as [[| | | | |ns]|]; try discriminate;
    intros H; inversion H; subst; simpl; repeat split; reflexivity.
Qed.

Lemma row_at_frame6_defined (rc : raw_columns) (st : column) (n i : nat) :
  aligned rc n -> col_status rc = Ok st -> (i < n)%nat ->
  exists r, row_at (frame6 rc st) i = Some r.
Proof.
  intros (Hh & _ & He & Hm & Hu & Hs & Hb) Hst Hi.
  pose proof (col_status_length _ _ Hst) as Hls.
  assert (Hx : forall (l : column), List.length l = n ->
                 exists c, nth_error l i = Some c).
  { intros l Hl. destruct (nth_error l i) eqn:E; eauto.
    apply nth_error_None in E; lia. }
  destruct (Hx _ Hh) as [ch Hch].
  destruct (Hx _ He) as [ce Hce].
  destruct (Hx _ Hm) as [cm Hcm].
  destruct (Hx _ Hu) as [cu Hcu].
  destruct (Hx st ltac:(lia)) as [cs Hcs].
  assert (Hb' : List.length (col_bytes rc) = n)
    by (unfold col_bytes; now rewrite length_map, to_numeric_length).
  destruct (Hx _ Hb') as [cb Hcb].
  destruct (Forall2_nth_r _ _ _ _ _ (astype_int_cells _ _ Hst) Hcs)
    as (c0 & _ & Hc0).
  destruct (astype_int_cell_int _ _ Hc0) as [z ->].
  assert (Hdt : nth_error (col_dt rc) i = Some (to_datetime ce))
    by (unfold col_dt; now rewrite nth_error_map, Hce).
  assert (Htm : nth_error (col_time rc) i = Some (strftime_cell (to_datetime ce)))
    by (unfold col_time; now rewrite nth_error_map, Hdt).
  assert (Hrq : nth_error (col_request rc) i = Some (concat_request cm cu))
    by (unfold col_request; now apply map2_nth).
  unfold row_at; cbn.
  rewrite Hch, Htm, Hrq, Hcs, Hcb, Hdt; unfold concat_request.
  destruct (to_datetime_shape ce) as [[ns ->]| ->]; eauto.
Qed.

(** A successful ingestion publishes a well-formed Log Table with one row
    per accepted line. *)
Lemma log_table_frame6 (rc : raw_columns) (st : column) (n : nat) :
  aligned rc n -> col_status rc = Ok st ->
  exists t, log_table (frame6 rc st) = Some t
            /\ List.length t = n
            /\ forall i r, nth_error t i = Some r -> row_of rc st i r.
Proof.
  intros Ha Hst.
  assert (Hn : nrows (frame6 rc st) = n) by (destruct Ha as (Hh & _); exact Hh).
  destruct (all_some_map_seq (row_at (frame6 rc st)) 0 n) as [t Ht].
  { intros i Hi; apply (row_at_frame6_defined rc st n i Ha Hst); lia. }
  exists t; unfold log_table; rewrite Hn.
  destruct (all_some_seq_rows _ _ _ Ht) as [Hl Hr].
  split; [exact Ht|split; [exact Hl|]].
  intros i r Hir; apply row_at_frame6; auto.
Qed.

End TableFacts.

(* ------------------------------------------------------------------------- *)
(** ** Ingestion and the global table *)
(* ------------------------------------------------------------------------- *)


Section IngestionFacts.

Context {FT : FloatType} {B : Backend}.

Lemma nrows_frames (rc : raw_columns) (st : column) :
  nrows (frame0 rc) = List.length (r_host rc)
  /\ nrows (frame1 rc) = List.length (r_host rc)
  /\ nrows (frame2 rc) = List.length (r_host rc)
  /\ nrows (frame3 rc) = List.length (r_host rc)
  /\ nrows (frame4 rc st) = List.length (r_host rc)
  /\ nrows (frame5 rc st) = List.length (r_host rc)
  /\ nrows (frame6 rc st) = List.length (r_host rc).
Proof. repeat split; reflexivity. Qed.

Lemma columns_of_host_length (text : string) :
  List.length (r_host (columns_of text)) = List.length (Csv.accepted_lines text).
Proof. now destruct (columns_of_aligned text) as (H & _). Qed.


End IngestionFacts.

(* ------------------------------------------------------------------------- *)
(** ** Field derivation *)
(* ------------------------------------------------------------------------- *)

Section DerivationFacts.

Context {FT : FloatType} {B : Backend}.

Lemma all_some_map_nth {X Y : Type} (f : X -> option Y) (l : list X)
    (r : list Y) (i : nat) (y : Y) :
  all_some (map f l) = Some r -> nth_error r i = Some y ->
  exists x, nth_error l i = Some x /\ f x = Some y.
Proof.
  intros H Hy. pose proof (all_some_nth _ _ i H) as Hn.
  rewrite Hy, nth_error_map in Hn; simpl in Hn.
  destruct (nth_error l i) as [x|]; simpl in Hn; [|discriminate].
  exists x; split; [reflexivity|now inversion Hn].
Qed.

Lemma na_is_not_bool (tok : string) :
  Csv.is_na tok = true -> cell_bool tok = None.
Proof.
  unfold Csv.is_na; rewrite existsb_exists; intros (x & Hin & Hx).
  apply String.eqb_eq in Hx; subst x.
  simpl in Hin.
  repeat (destruct Hin as [<-|Hin]; [reflexivity|]).
  destruct Hin.
Qed.

(** A cell of the frame read is null exactly when its token is an NA
    marker, and is never a timestamp. *)
Lemma infer_column_cell (toks : list string) (i : nat) (c : cell) :
  nth_error (infer_column toks) i = Some c ->
  exists tok, nth_error toks i = Some tok
              /\ (c = CNull <-> Csv.is_na tok = true)
              /\ (forall ns, c <> CTime ns).
Proof.
  unfold infer_column; intros H.
  destruct (all_some (map cell_int toks)) as [c1|] eqn:E1.
  { destruct (all_some_map_nth _ _ _ _ _ E1 H) as (tok & Ht & Hc).
    exists tok; split; [exact Ht|]. unfold cell_int in Hc.
    destruct (Csv.is_na tok); [discriminate|].
    destruct (csv_int tok); inversion Hc; subst.
    split; [split; discriminate|discriminate]. }
  destruct (all_some (map cell_float toks)) as [c2|] eqn:E2.
  { destruct (all_some_map_nth _ _ _ _ _ E2 H) as (tok & Ht & Hc).
    exists tok; split; [exact Ht|]. unfold cell_float in Hc.
    destruct (Csv.is_na tok).
    - inversion Hc; subst. split; [tauto|discriminate].
    - destruct (csv_float tok); inversion Hc; subst.
      split; [split; discriminate|discriminate]. }
  destruct (all_some (map cell_bool toks)) as [c3|] eqn:E3.
  { destruct (all_some_map_nth _ _ _ _ _ E3 H) as (tok & Ht & Hc).
    exists tok; split; [exact Ht|].
    destruct (Csv.is_na tok) eqn:En.
    - rewrite (na_is_not_bool _ En) in Hc; discriminate.
    - unfold cell_bool in Hc.
      destruct (existsb (String.eqb tok) Csv.true_values);
        [|destruct (existsb (String.eqb tok) Csv.false_values)];
        inversion Hc; subst; split; try (split; discriminate); discriminate. }
  rewrite nth_error_map in H.
  destruct (nth_error toks i) as [tok|]; simpl in H; [|discriminate].
  inversion H; subst; exists tok; split; [reflexivity|].
  unfold cell_object; destruct (Csv.is_na tok);
    split; try tauto; try discriminate; split; discriminate.
Qed.

Lemma parse_numeric_cell_shape (c : cell) : number_or_null (parse_numeric_cell c).
Proof.
  destruct c; simpl; try (now left); try (now right).
  destruct (str_to_numeric s) as [[z|f]|]; [now left|now left|now right].
Qed.

Lemma to_numeric_cell (col : column) (i : nat) (c : cell) :
  (forall j x ns, nth_error col j = Some x -> x <> CTime ns) ->
  nth_error (to_numeric col) i = Some c -> number_or_null c.
Proof.
  intros Hnt; unfold to_numeric.
  destruct (existsb is_str col) eqn:Es.
  - destruct (forallb is_int (map parse_numeric_cell col)).
    + rewrite nth_error_map; destruct (nth_error col i); simpl; [|discriminate].
      intros H; inversion H; apply parse_numeric_cell_shape.
    + rewrite !nth_error_map; destruct (nth_error col i); simpl; [|discriminate].
      intros H; inversion H.
      destruct (parse_numeric_cell_shape c0) as [Hn| ->]; [|now right].
      left; destruct (parse_numeric_cell c0); simpl in *; congruence.
  - intros H.
    assert (Hs : is_str c = false).
    { destruct (is_str c) eqn:E; [|reflexivity].
      assert (existsb is_str col = true)
        by (apply existsb_exists; exists c; split;
            [eapply nth_error_In; eauto|assumption]).
      congruence. }
    destruct c; simpl in Hs; try discriminate;
      try (now left); try (now right).
    exfalso; eapply Hnt; eauto.
Qed.

Lemma fillna0_number (c : cell) : number_or_null c -> is_number (fillna0 c) = true.
Proof. intros [H| ->]; [destruct c; simpl in *; congruence|reflexivity]. Qed.

End DerivationFacts.

Section DerivedFields.

Context {FT : FloatType} {B : Backend}.

Lemma nth_error_defined {A : Type} (l : list A) (i : nat) :
  (i < List.length l)%nat -> exists x, nth_error l i = Some x.
Proof.
  intros H; destruct (nth_error l i) eqn:E; eauto.
  apply nth_error_None in E; lia.
Qed.

Lemma store_after_upload (env : host_env) (prev : store) (text : string) :
  store_after prev (upload env (Some text))
  = Some match col_status (columns_of text) with
         | Ok st => frame6 (columns_of text) st
         | Raise _ => frame3 (columns_of text)
         end.
Proof.
  rewrite upload_outcome; unfold outcome.
  destruct (col_status (columns_of text)); reflexivity.
Qed.

Lemma upload_loaded (env : host_env) (text : string) (n : nat) :
  reply (upload env (Some text)) = Loaded n ->
  exists st, col_status (columns_of text) = Ok st
             /\ n = List.length (Csv.accepted_lines text).
Proof.
  rewrite upload_outcome; unfold outcome.
  destruct (col_status (columns_of text)) as [st|e]; cbn [reply];
    intros H; inversion H.
  exists st; split; [reflexivity|]. apply columns_of_host_length.
Qed.


End DerivedFields.



Section Defaults.

Context {FT : FloatType} {B : Backend}.

Lemma infer_column_no_time (toks : list string) (j : nat) (x : cell) (ns : Z) :
  nth_error (infer_column toks) j = Some x -> x <> CTime ns.
Proof.
  intros H; destruct (infer_column_cell _ _ _ H) as (_ & _ & _ & Hn); apply Hn.
Qed.


End Defaults.

Lemma reference_float_zero : float_zero_law reference_backend.
Proof. reflexivity. Qed.


(* ------------------------------------------------------------------------- *)
(** ** Timestamps *)
(* ------------------------------------------------------------------------- *)

Section Timestamps.

Context {FT : FloatType} {B : Backend}.


End Timestamps.


(* ------------------------------------------------------------------------- *)
(** ** Aggregates *)
(* ------------------------------------------------------------------------- *)

Lemma sum_nat_add {A : Type} (f g : A -> nat) (l : list A) :
  sum_nat (map (fun k => (f k + g k)%nat) l)
  = (sum_nat (map f l) + sum_nat (map g l))%nat.
Proof. induction l as [|x r IH]; simpl; lia. Qed.

Lemma sum_nat_ext {A : Type} (f g : A -> nat) (l : list A) :
  (forall k, f k = g k) -> sum_nat (map f l) = sum_nat (map g l).
Proof. intros H; induction l as [|x r IH]; simpl; congruence. Qed.

Lemma indicator_sum (y lo : Z) (a n : nat) :
  sum_nat (map (fun k => if Z.eqb y k then 1%nat else 0%nat)
               (map (fun i => (lo + Z.of_nat i)%Z) (seq a n)))
  = if ((lo + Z.of_nat a <=? y) && (y <? lo + Z.of_nat a + Z.of_nat n))%Z
    then 1%nat else 0%nat.
Proof.
  revert a; induction n as [|n IH]; intros a.
  - simpl.
    destruct (Z.leb_spec (lo + Z.of_nat a) y);
      destruct (Z.ltb_spec y (lo + Z.of_nat a + 0)); simpl;
      try reflexivity; lia.
  - cbn [seq map sum_nat]. rewrite IH.
    destruct (Z.eqb_spec y (lo + Z.of_nat a));
      destruct (Z.leb_spec (lo + Z.of_nat (S a)) y);
      destruct (Z.ltb_spec y (lo + Z.of_nat (S a) + Z.of_nat n));
      destruct (Z.leb_spec (lo + Z.of_nat a) y);
      destruct (Z.ltb_spec y (lo + Z.of_nat a + Z.of_nat (S n)));
      simpl; try reflexivity; lia.
Qed.

Lemma length_filter_cons {A : Type} (p : A -> bool) (x : A) (l : list A) :
  List.length (filter p (x :: l))
  = ((if p x then 1 else 0) + List.length (filter p l))%nat.
Proof. simpl; destruct (p x); reflexivity. Qed.

(** Counting a list by the value of [f] over a range that covers every
    value counts each element once. *)
Lemma sum_bucket_counts (f : Z -> Z) (l : list Z) (lo hi : Z) :
  (forall x, In x l -> (lo <= f x <= hi)%Z) ->
  sum_nat (map (fun k => List.length (filter (fun x => Z.eqb (f x) k) l))
               (zrange lo hi))
  = List.length l.
Proof.
  induction l as [|x r IH]; intros H.
  - simpl. induction (zrange lo hi); simpl; auto.
  - rewrite (sum_nat_ext _ (fun k => ((if Z.eqb (f x) k then 1 else 0)
               + List.length (filter (fun x0 => Z.eqb (f x0) k) r))%nat));
      [|intros k; exact (length_filter_cons (fun x0 => Z.eqb (f x0) k) x r)].
    rewrite sum_nat_add, IH by (intros y Hy; apply H; now right).
    unfold zrange; rewrite indicator_sum.
    destruct (H x (or_introl eq_refl)) as [H1 H2].
    destruct (Z.leb_spec (lo + Z.of_nat 0) (f x));
      destruct (Z.ltb_spec (f x)
                  (lo + Z.of_nat 0 + Z.of_nat (Z.to_nat (hi - lo + 1))));
      simpl; try reflexivity; lia.
Qed.

Lemma fold_min_le (b : Z) (l : list Z) :
  (fold_right Z.min b l <= b)%Z
  /\ forall x, In x l -> (fold_right Z.min b l <= x)%Z.
Proof.
  induction l as [|y r [IH1 IH2]]; simpl; [split; [lia|tauto]|].
  split; [lia|]. intros x [->|Hx]; [lia|]. specialize (IH2 x Hx); lia.
Qed.

Lemma fold_max_ge (b : Z) (l : list Z) :
  (b <= fold_right Z.max b l)%Z
  /\ forall x, In x l -> (x <= fold_right Z.max b l)%Z.
Proof.
  induction l as [|y r [IH1 IH2]]; simpl; [split; [lia|tauto]|].
  split; [lia|]. intros x [->|Hx]; [lia|]. specialize (IH2 x Hx); lia.
Qed.

Section TimeSeries.

Context {FT : FloatType} {B : Backend}.

Lemma keep_some_dt_length (t : table) :
  List.length (keep_some (map dt t)) = List.length (filter has_time t).
Proof.
  induction t as [|r t IH]; simpl; [reflexivity|].
  unfold has_time at 1; destruct (dt r); simpl; congruence.
Qed.

Lemma resample_counts_sum (ts : list (option Z)) (bins : list (Z * nat)) :
  resample_hour_size ts = Ok bins ->
  sum_nat (map snd bins) = List.length (keep_some ts) /\ bins <> [].
Proof.
  unfold resample_hour_size.
  destruct (keep_some ts) as [|v vs] eqn:E; [discriminate|].
  intros H; inversion H; subst bins; clear H.
  set (lo := fold_right Z.min (bucket v) (map bucket vs)).
  set (hi := fold_right Z.max (bucket v) (map bucket vs)).
  assert (Hcov : forall x, In x (v :: vs) -> (lo <= bucket x <= hi)%Z).
  { intros x Hx. destruct (fold_min_le (bucket v) (map bucket vs)) as [A1 A2].
    destruct (fold_max_ge (bucket v) (map bucket vs)) as [B1 B2].
    destruct Hx as [->|Hx]; [subst lo hi; lia|].
    specialize (A2 _ (in_map bucket _ _ Hx)).
    specialize (B2 _ (in_map bucket _ _ Hx)). subst lo hi; lia. }
  split.
  - rewrite map_map; cbn [snd].
    apply (sum_bucket_counts bucket (v :: vs) lo hi Hcov).
  - assert (Hle : (lo <= hi)%Z)
      by (specialize (Hcov v (or_introl eq_refl)); lia).
    unfold zrange.
    destruct (Z.to_nat (hi - lo + 1)) eqn:En; [lia|]. simpl. discriminate.
Qed.

(** C6: the counts of [requests_over_time] add up to the number of records
    with a non-null [parsed_time]; records without one are left out of this
    aggregate but still count in [total]; the sequence is empty exactly when
    no record has a valid time, in particular on an empty table, and [stats]
    answers in every case. *)
Theorem C6_bucket_counts_sum_to_timed_records (g : option table) :
  sum_nat (map snd (over_time (stats g)))
  = List.length (filter has_time (rows_of g))
  /\ total (stats g) = List.length (rows_of g)
  /\ (over_time (stats g) = [] <-> filter has_time (rows_of g) = []).
Proof.
  destruct g as [[|r t]|]; cbn [stats rows_of over_time total];
    try (repeat split; reflexivity).
  set (t' := r :: t).
  unfold requests_over_time.
  pose proof (keep_some_dt_length t') as Hk.
  destruct (resample_hour_size (map dt t')) as [bins|e] eqn:E.
  - destruct (resample_counts_sum _ _ E) as [Hs Hne].
    split.
    { rewrite map_map, <- Hk, <- Hs. reflexivity. }
    split; [reflexivity|].
    split.
    + intros H; apply map_eq_nil in H; contradiction.
    + intros H; exfalso; rewrite H in Hk.
      unfold resample_hour_size in E.
      destruct (keep_some (map dt t')); [discriminate|].
      cbn [List.length] in Hk; lia.
  - unfold resample_hour_size in E.
    destruct (keep_some (map dt t')) as [|v vs] eqn:Ev; [|discriminate].
    cbn [List.length] in Hk.
    split; [cbn [map sum_nat]; lia|]. split; [reflexivity|].
    split; [intros _|reflexivity].
    destruct (filter has_time t'); [reflexivity|cbn [List.length] in Hk; lia].
Qed.

End TimeSeries.

(** [round_half_even n d] is the integer nearest to [n / d], the even one
    of the two when [n / d] lies half way. *)
Lemma round_half_even_nearest (n d : Z) :
  (0 < d)%Z ->
  let h := round_half_even n d in
  (2 * Z.abs (h * d - n) <= d)%Z
  /\ ((2 * Z.abs (h * d - n) = d)%Z -> Z.even h = true).
Proof.
  intros Hd; cbv zeta; unfold round_half_even.
  pose proof (Z.div_mod n d ltac:(lia)) as Hdm.
  pose proof (Z.mod_pos_bound n d Hd) as Hr.
  set (q := (n / d)%Z) in *. set (r := (n mod d)%Z) in *.
  destruct (Z.ltb_spec (2 * r) d) as [H1|H1].
  - split; [nia|]. intros Ht; exfalso; nia.
  - destruct (Z.ltb_spec d (2 * r)) as [H2|H2].
    + split; [nia|]. intros Ht; exfalso; nia.
    + assert (Hrd : (2 * r = d)%Z) by lia.
      destruct (Z.even q) eqn:Ev.
      * split; [nia|intros _; exact Ev].
      * split; [nia|intros _].
        rewrite Z.even_add, Ev; reflexivity.
Qed.

Lemma round_half_even_bounds (n d k : Z) :
  (0 < d)%Z -> (0 <= n <= k * d)%Z ->
  (0 <= round_half_even n d <= k)%Z.
Proof.
  intros Hd Hn; unfold round_half_even.
  pose proof (Z.div_mod n d ltac:(lia)) as Hdm.
  pose proof (Z.mod_pos_bound n d Hd) as Hr.
  set (q := (n / d)%Z) in *. set (r := (n mod d)%Z) in *.
  assert (Hq0 : (0 <= q)%Z) by nia.
  assert (Hqk : (q <= k)%Z) by nia.
  destruct (Z.ltb_spec (2 * r) d); [lia|].
  assert (Hlt : (q < k)%Z) by nia.
  destruct (Z.ltb_spec d (2 * r)); [lia|].
  destruct (Z.even q); lia.
Qed.

Section ErrorRate.

Context {FT : FloatType} {B : Backend}.


End ErrorRate.

(* ------------------------------------------------------------------------- *)
(** ** Rankings *)
(* ------------------------------------------------------------------------- *)

Section SortedLists.

Variable A : Type.
Variable R : A -> A -> Prop.

Lemma StronglySorted_filter (p : A -> bool) (l : list A) :
  StronglySorted R l -> StronglySorted R (filter p l).
Proof.
  induction 1 as [|x r Hs IH Hf]; simpl; [constructor|].
  destruct (p x); [|assumption].
  constructor; [assumption|].
  rewrite Forall_forall in *; intros y Hy.
  apply filter_In in Hy; apply Hf; tauto.
Qed.

Lemma StronglySorted_app_l (l1 l2 : list A) :
  StronglySorted R (l1 ++ l2) -> StronglySorted R l1.
Proof.
  induction l1 as [|x r IH]; simpl; intros H; [constructor|].
  inversion H as [|? ? Hs Hf]; subst.
  constructor; [now apply IH|].
  rewrite Forall_forall in *; intros y Hy; apply Hf, in_or_app; now left.
Qed.

Lemma StronglySorted_firstn (n : nat) (l : list A) :
  StronglySorted R l -> StronglySorted R (firstn n l).
Proof.
  intros H; apply (StronglySorted_app_l _ (skipn n l)).
  now rewrite firstn_skipn.
Qed.

End SortedLists.

Lemma StronglySorted_map {A C : Type} (R : C -> C -> Prop) (f : A -> C)
    (l : list A) :
  StronglySorted (fun a b => R (f a) (f b)) l <-> StronglySorted R (map f l).
Proof.
  induction l as [|x r IH]; simpl; split; intros H; try constructor;
    inversion H as [|? ? Hs Hf]; subst.
  - now apply IH.
  - rewrite Forall_forall in *; intros y Hy.
    apply in_map_iff in Hy; destruct Hy as (z & <- & Hz); now apply Hf.
  - now apply IH.
  - rewrite Forall_forall in *; intros y Hy.
    apply Hf, in_map; assumption.
Qed.

Section FirstOccurrence.

Variable K : Type.
Variable eqb : K -> K -> bool.
Hypothesis eqb_refl : forall k, eqb k k = true.

(** [distinct] lists the keys by increasing position of first occurrence. *)
Lemma distinct_by_first_index (l : list K) :
  StronglySorted (fun a b => (first_index eqb a l < first_index eqb b l)%nat)
                 (distinct K eqb l).
Proof.
  induction l as [|x r IH]; simpl; [constructor|].
  constructor.
  - clear - IH. induction IH as [|a d Hs IHd Hf]; simpl; [constructor|].
    destruct (eqb x a) eqn:Ea; simpl; [assumption|].
    constructor; [assumption|].
    rewrite Forall_forall in *; intros b Hb.
    apply filter_In in Hb; destruct Hb as [Hb Hxb].
    apply negb_true_iff in Hxb. specialize (Hf b Hb).
    rewrite Ea, Hxb; lia.
  - rewrite Forall_forall; intros y Hy.
    apply filter_In in Hy; destruct Hy as [_ Hy].
    rewrite eqb_refl. apply negb_true_iff in Hy; rewrite Hy; lia.
Qed.

Lemma distinct_incl (l : list K) (k : K) : In k (distinct K eqb l) -> In k l.
Proof.
  induction l as [|x r IH]; simpl; [tauto|].
  intros [->|H]; [now left|right].
  apply filter_In in H; tauto.
Qed.

End FirstOccurrence.

Lemma StronglySorted_app_cross {A : Type} (R : A -> A -> Prop)
    (l1 l2 : list A) (x y : A) :
  StronglySorted R (l1 ++ l2) -> In x l1 -> In y l2 -> R x y.
Proof.
  induction l1 as [|a r IH]; simpl; intros H Hx Hy; [destruct Hx|].
  inversion H as [|? ? Hs Hf]; subst.
  destruct Hx as [->|Hx]; [|now apply IH].
  rewrite Forall_forall in Hf; apply Hf, in_or_app; now right.
Qed.

Section Ranking.

Context {FT : FloatType} {B : Backend}.
Hypothesis Hcontract : sort_contract B.
Hypothesis Hstable : sort_stable B.

Variable K : Type.
Variable eqb : K -> K -> bool.
Hypothesis eqb_refl : forall k, eqb k k = true.

Lemma counts_by_first_index (keys : list K) :
  StronglySorted
    (fun a b : K * nat =>
       (first_index eqb (fst a) keys < first_index eqb (fst b) keys)%nat)
    (counts_in_order K eqb keys).
Proof.
  unfold counts_in_order.
  apply (StronglySorted_map
           (fun a b : K * nat =>
              (first_index eqb (fst a) keys < first_index eqb (fst b) keys)%nat)
           (fun k => (k, count_key K eqb k keys))).
  cbn [fst]. apply distinct_by_first_index, eqb_refl.
Qed.

Lemma top5_is_ranking (keys : list K) :
  ranking_of eqb keys (top5 K eqb keys).
Proof.
  unfold top5, value_counts.
  set (cs := counts_in_order K eqb keys).
  destruct (Hcontract K cs) as [Hperm Hsorted].
  set (s := sort_counts K cs) in *.
  assert (Hsplit : s = firstn 5 s ++ skipn 5 s)
    by (symmetry; apply firstn_skipn).
  split; [apply firstn_le_length|].
  split.
  { rewrite length_firstn, (Permutation_length Hperm).
    unfold cs, counts_in_order; now rewrite length_map. }
  split; [now apply StronglySorted_firstn|].
  split.
  { intros c.
    pose proof (counts_by_first_index keys) as Hfi; fold cs in Hfi.
    apply (StronglySorted_filter _ _ (count_is c)) in Hfi.
    rewrite <- (Hstable K cs c) in Hfi; fold s in Hfi.
    rewrite Hsplit, filter_app in Hfi.
    apply StronglySorted_map in Hfi. rewrite map_app in Hfi.
    now apply StronglySorted_app_l in Hfi. }
  split.
  { intros k c Hin.
    assert (Hs : In (k, c) s) by (rewrite Hsplit; apply in_or_app; now left).
    apply (Permutation_in _ Hperm) in Hs.
    unfold cs, counts_in_order in Hs. apply in_map_iff in Hs.
    destruct Hs as (k0 & Hk0 & Hd). inversion Hk0; subst.
    split; [now apply (distinct_incl K eqb)|reflexivity]. }
  intros kv kv' Hin Hcs Hnot.
  assert (Hs : In kv' s) by (apply (Permutation_in _ (Permutation_sym Hperm)), Hcs).
  rewrite Hsplit in Hs. apply in_app_or in Hs.
  destruct Hs as [Hs|Hs]; [contradiction|].
  rewrite Hsplit in Hsorted.
  exact (StronglySorted_app_cross _ _ _ _ _ Hsorted Hin Hs).
Qed.

End Ranking.

Section Top5.

Context {FT : FloatType} {B : Backend}.

Lemma cell_eqb_refl :
  (forall f, float_eqb f f = true) -> forall c, cell_eqb c c = true.
Proof.
  intros Hf [| z | f | b | s | ns]; simpl; auto.
  - apply Z.eqb_refl.
  - now destruct b.
  - apply String.eqb_refl.
  - apply Z.eqb_refl.
Qed.

Lemma str_split_get1_requests (t : table) :
  str_split_get1 (map (fun r => CStr (request r)) t) = Ok (map token_cell t).
Proof.
  induction t as [|r t IH]; simpl; [reflexivity|].
  rewrite IH; unfold token_cell.
  destruct (Str.split_ws (request r)) as [|a [|b l]]; reflexivity.
Qed.

Lemma top_5_ips_ranked (t : table) :
  top_5_ips t = map render_entry (top5 cell cell_eqb (host_keys t)).
Proof. reflexivity. Qed.

Lemma top_5_endpoints_ranked (t : table) :
  top_5_endpoints t = map render_entry (top5 cell cell_eqb (endpoint_keys t)).
Proof.
  unfold top_5_endpoints; now rewrite str_split_get1_requests.
Qed.

Lemma ranking_of_nil (K : Type) (eqb : K -> K -> bool) :
  ranking_of eqb [] [].
Proof.
  unfold ranking_of; simpl.
  split; [lia|]. split; [reflexivity|]. split; [constructor|].
  split; [intros; constructor|]. split; intros; contradiction.
Qed.


End Top5.

(** *** The reference back-end sorts stably *)

Lemma insert_desc_perm {K : Type} (x : K * nat) (l : list (K * nat)) :
  Permutation (Ref.insert_desc x l) (x :: l).
Proof.
  induction l as [|y r IH]; simpl; [reflexivity|].
  destruct (snd y <=? snd x)%nat; [reflexivity|].
  rewrite IH; apply perm_swap.
Qed.

Lemma insert_desc_sorted {K : Type} (x : K * nat) (l : list (K * nat)) :
  StronglySorted by_count_desc l ->
  StronglySorted by_count_desc (Ref.insert_desc x l).
Proof.
  induction 1 as [|y r Hs IH Hf]; simpl; [repeat constructor|].
  destruct (Nat.leb_spec (snd y) (snd x)) as [Hle|Hlt].
  - constructor; [now constructor|].
    constructor; [exact Hle|].
    rewrite Forall_forall in *; intros z Hz.
    specialize (Hf z Hz); unfold by_count_desc in *; lia.
  - constructor; [assumption|].
    rewrite Forall_forall in *; intros z Hz.
    apply (Permutation_in _ (insert_desc_perm x r)) in Hz.
    destruct Hz as [<-|Hz]; [unfold by_count_desc; lia|now apply Hf].
Qed.

Lemma insert_desc_stable {K : Type} (c : nat) (x : K * nat)
    (l : list (K * nat)) :
  filter (count_is c) (Ref.insert_desc x l) = filter (count_is c) (x :: l).
Proof.
  induction l as [|y r IH]; [reflexivity|].
  cbn [Ref.insert_desc].
  destruct (Nat.leb_spec (snd y) (snd x)) as [Hle|Hlt]; [reflexivity|].
  cbn [filter] in *. rewrite IH.
  unfold count_is.
  destruct (Nat.eqb_spec (snd y) c) as [Hy|Hy];
    destruct (Nat.eqb_spec (snd x) c) as [Hx|Hx]; try reflexivity; lia.
Qed.

Lemma reference_sort_contract : sort_contract reference_backend.
Proof.
  intros K l; cbn [sort_counts reference_backend].
  induction l as [|x r [IHp IHs]]; simpl.
  - split; constructor.
  - split; [|now apply insert_desc_sorted].
    rewrite insert_desc_perm; now constructor.
Qed.

Lemma reference_sort_stable : sort_stable reference_backend.
Proof.
  intros K l c; cbn [sort_counts reference_backend].
  induction l as [|x r IH]; [reflexivity|].
  cbn [Ref.sort_desc]. rewrite insert_desc_stable.
  cbn [filter]. now rewrite IH.
Qed.

Lemma reference_float_eqb_refl :
  forall f : float64 (FloatType:=reference_float),
    float_eqb (Backend:=reference_backend) f f = true.
Proof.
  intros [m k|b]; cbn.
  - apply Z.eqb_refl.
  - now destruct b.
Qed.


(** C3 at its failing input: the second record, whose request "GET  " has
    no second token, is kept in the table and counts in [total], but it is
    absent from [top_5_endpoints]: the token is missing without any
    exception, so the fall-back to the full request never runs. *)
Lemma C3_request_without_second_token_is_not_ranked :
  option_map (map request) (table_of (B:=reference_backend) blank_url_text)
  = Some ["GET /shuttle/missions/sts-1"; "GET  "]
  /\ Str.split_ws "GET  " = ["GET"]
  /\ total (stats (table_of (B:=reference_backend) blank_url_text)) = 2%nat
  /\ top_endpoints (stats (table_of (B:=reference_backend) blank_url_text))
     = [("/shuttle/missions/sts-1", 1%nat)].
Proof. repeat split; vm_compute; reflexivity. Qed.

Section EndpointKeys.

Context {FT : FloatType} {B : Backend}.

(** Only requests with a second token contribute a ranking key. *)
Lemma endpoint_keys_tokens (t : table) (k : cell) :
  In k (endpoint_keys t) <->
  exists r a tok rest,
    In r t /\ Str.split_ws (request r) = a :: tok :: rest /\ k = CStr tok.
Proof.
  unfold endpoint_keys, non_null; rewrite filter_In, in_map_iff; split.
  - intros [(r & Hk & Hr) Hn]; unfold token_cell in Hk.
    destruct (Str.split_ws (request r)) as [|a [|tok rest]] eqn:E;
      subst k; try discriminate.
    now exists r, a, tok, rest.
  - intros (r & a & tok & rest & Hr & Hs & ->); split; [|reflexivity].
    exists r; split; [|assumption]. unfold token_cell; now rewrite Hs.
Qed.

End EndpointKeys.

(* ------------------------------------------------------------------------- *)
(** ** Search *)
(* ------------------------------------------------------------------------- *)

Lemma prefix_app (n h : string) :
  String.prefix n h = true <-> exists b, h = (n ++ b)%string.
Proof.
  revert h; induction n as [|c n IH]; intros h.
  - split; [intros _; now exists h|intros _; now destruct h].
  - destruct h as [|d h]; simpl;
      [split; [discriminate|intros [b Hb]; discriminate]|].
    destruct (ascii_dec c d) as [->|Hne].
    + rewrite IH; split; intros [b Hb]; exists b; [now subst|now inversion Hb].
    + split; [discriminate|intros [b Hb]; inversion Hb; congruence].
Qed.

(** [Str.contains] is literal containment. *)
Lemma contains_spec (n h : string) :
  Str.contains n h = true <-> exists a b, h = (a ++ n ++ b)%string.
Proof.
  induction h as [|d h IH]; cbn [Str.contains]; rewrite orb_true_iff.
  - split.
    + intros [H|H]; [|discriminate].
      apply prefix_app in H; destruct H as [b Hb]. now exists ""%string, b.
    + intros (a & b & H). left. apply prefix_app.
      destruct a; [now exists b|discriminate].
  - rewrite IH; split.
    + intros [H|(a & b & ->)].
      * apply prefix_app in H; destruct H as [b Hb]. now exists ""%string, b.
      * now exists (String d a), b.
    + intros ([|c a] & b & H).
      * left; apply prefix_app; now exists b.
      * right; exists a, b; now inversion H.
Qed.

Section SearchFacts.

Context {FT : FloatType} {B : Backend}.

Lemma str_contains_literal (q : string) (col : list string) :
  re_literal_law B -> regex_plain q = true ->
  str_contains q col = Ok (map (Str.icontains q) col).
Proof.
  intros Hre Hq; induction col as [|s r IH]; simpl; [reflexivity|].
  now rewrite (Hre q s Hq), IH.
Qed.

Lemma select_mask_filter {A : Type} (f : A -> bool) (l : list A) :
  select_mask l (map f l) = filter f l.
Proof.
  induction l as [|x r IH]; simpl; [reflexivity|].
  now destruct (f x); rewrite IH.
Qed.

(** C2, amended: the query is first stripped of surrounding whitespace.
    When the stripped query has no regular-expression metacharacter,
    [search] succeeds and returns, in table order, the first 50 records
    whose request contains it as a case-insensitive literal substring, with
    their number; a query that is empty once stripped, an empty table and a
    store never loaded give zero results. *)
Theorem C2_search_returns_literal_matches
    (Hre : re_literal_law B) (g : option table) (arg : string)
    (Hplain : regex_plain (Str.strip arg) = true) :
  let found := hits (Str.strip arg) (rows_of g) in
  search g arg = Ok {| count := List.length found;
                       results := map render found |}
  /\ (List.length found <= 50)%nat
  /\ (forall r, In r found ->
        In r (rows_of g)
        /\ Str.icontains (Str.strip arg) (request r) = true).
Proof.
  cbv zeta; unfold hits, search.
  split; [|split].
  - destruct g as [[|r t]|]; cbn [rows_of].
    + destruct (String.eqb (Str.strip arg) ""); reflexivity.
    + destruct (String.eqb (Str.strip arg) ""); [reflexivity|].
      rewrite str_contains_literal by assumption.
      cbn [bind]. rewrite map_map, select_mask_filter, length_map.
      reflexivity.
    + destruct (String.eqb (Str.strip arg) ""); reflexivity.
  - destruct (String.eqb (Str.strip arg) ""); [simpl; lia|].
    apply firstn_le_length.
  - intros r Hr.
    destruct (String.eqb (Str.strip arg) ""); [destruct Hr|].
    assert (Hin : In r (filter (fun r0 => Str.icontains (Str.strip arg)
                                             (request r0)) (rows_of g))).
    { rewrite <- (firstn_skipn 50). apply in_or_app; now left. }
    now apply filter_In in Hin.
Qed.

(** A pattern that does not compile makes the handler fail. *)
Lemma search_fails_on_bad_pattern (r : record) (t : table) (arg : string) :
  Str.strip arg <> ""%string ->
  re_search_icase (Str.strip arg) (request r) = None ->
  search (Some (r :: t)) arg = Raise ReError.
Proof.
  intros Hne Hbad; unfold search.
  destruct (String.eqb_spec (Str.strip arg) ""); [contradiction|].
  cbn [map str_contains]. now rewrite Hbad.
Qed.

End SearchFacts.

Lemma reference_re_literal : re_literal_law reference_backend.
Proof.
  intros q s Hq; cbn [re_search_icase reference_backend].
  unfold Ref.re_search; now rewrite Hq.
Qed.

(** C2, as stated, fails: the query of one space is a literal substring of
    the request "GET /shuttle/missions/sts-1", and [search] returns nothing
    for it, because the query is stripped before it is used. *)
Lemma C2_whitespace_query_finds_nothing :
  option_map (map request) (table_of (B:=reference_backend) sample_line)
  = Some ["GET /shuttle/missions/sts-1"]
  /\ Str.icontains " " "GET /shuttle/missions/sts-1" = true
  /\ search (table_of (B:=reference_backend) sample_line) " "
     = Ok {| count := 0; results := [] |}.
Proof. repeat split; vm_compute; reflexivity. Qed.

Lemma C2_search_returns_literal_matches_witness :
  regex_plain (Str.strip " get ") = true
  /\ search (table_of (B:=reference_backend) blank_url_text) " get "
     = Ok {| count := 2;
             results :=
               [[("host", "10.0.0.1"); ("time", "01/Jul/1995:04:01:44");
                 ("request", "GET /shuttle/missions/sts-1");
                 ("status", "200"); ("bytes", "1024")];
                [("host", "10.0.0.2"); ("time", "01/Jul/1995:04:01:45");
                 ("request", "GET  "); ("status", "200"); ("bytes", "1024")]]
          |}.
Proof.
  split; [reflexivity|].
  destruct (C2_search_returns_literal_matches reference_re_literal
              (table_of (B:=reference_backend) blank_url_text) " get "
              eq_refl) as (H & _).
  rewrite H. vm_compute. reflexivity.
Defined.

(* ------------------------------------------------------------------------- *)
(** ** Further properties of the record parser *)
(* ------------------------------------------------------------------------- *)

Lemma split_on_nonempty (sep : ascii) (s : string) : Str.split_on sep s <> [].
Proof.
  destruct s as [|c s]; simpl; [discriminate|].
  destruct (Ascii.eqb c sep); [discriminate|].
  destruct (Str.split_on sep s); discriminate.
Qed.

Lemma concat_cons_char (sep : string) (c : ascii) (f : string)
    (fs : list string) :
  String.concat sep (String c f :: fs) = String c (String.concat sep (f :: fs)).
Proof. destruct fs; reflexivity. Qed.

(** Joining the pieces of a split with the separator gives the string back. *)
Lemma split_on_join (sep : ascii) (s : string) :
  String.concat (String sep "") (Str.split_on sep s) = s.
Proof.
  induction s as [|c s IH]; [reflexivity|].
  cbn [Str.split_on].
  pose proof (split_on_nonempty sep s) as Hn.
  destruct (Ascii.eqb_spec c sep) as [->|Hne].
  - destruct (Str.split_on sep s) as [|f fs]; [contradiction|].
    change (String.concat (String sep "") ("" :: f :: fs))
      with (String sep (String.concat (String sep "") (f :: fs))).
    now rewrite IH.
  - destruct (Str.split_on sep s) as [|f fs]; [contradiction|].
    rewrite concat_cons_char. now rewrite IH.
Qed.

Lemma split_on_no_sep (sep : ascii) (s f : string) :
  In f (Str.split_on sep s) -> Str.has_char (Ascii.eqb sep) f = false.
Proof.
  revert f; induction s as [|c s IH]; intros f; cbn [Str.split_on].
  - intros [<-|[]]; reflexivity.
  - destruct (Ascii.eqb_spec c sep) as [->|Hne].
    + intros [<-|H]; [reflexivity|now apply IH].
    + pose proof (split_on_nonempty sep s) as Hn.
      destruct (Str.split_on sep s) as [|g gs]; [contradiction|].
      intros [<-|H].
      * unfold Str.has_char; cbn [list_ascii_of_string existsb].
        destruct (Ascii.eqb_spec sep c) as [->|_]; [contradiction|].
        apply (IH g); now left.
      * apply IH; now right.
Qed.

Lemma width_of_ge (text : string) : (7 <= Csv.width_of text)%nat.
Proof.
  unfold Csv.width_of, Csv.table_width.
  change (List.length Csv.column_names) with 7%nat.
  destruct (Csv.data_lines text); lia.
Qed.

Lemma pad_length (w : nat) (r : list string) :
  (List.length r <= w)%nat -> List.length (Csv.pad w r) = w.
Proof.
  intros H; unfold Csv.pad. rewrite length_app, repeat_length. lia.
Qed.

Section FrameShape.

Context {FT : FloatType} {B : Backend}.

(** The frame read from a quote-free text is rectangular, also when lines
    are short or the first line is too long: every accepted row has exactly
    the seven named fields, and the frame has the seven columns of
    [column_names], in that order, each with one cell per accepted line. *)
Theorem read_csv_is_rectangular (text : string)
    (Hplain : Csv.plain_text text = true) :
  (forall r, In r (Csv.rows text) -> List.length r = 7%nat)
  /\ map fst (read_csv text) = Csv.column_names
  /\ (forall name, In name Csv.column_names ->
        exists c, df_get name (read_csv text) = Ok c
                  /\ List.length c = List.length (Csv.accepted_lines text)).
Proof.
  split; [|split].
  - intros r Hr. unfold Csv.rows in Hr. apply in_map_iff in Hr.
    destruct Hr as (l & <- & Hl).
    unfold Csv.accepted_lines in Hl. apply filter_In in Hl.
    destruct Hl as [_ Hk]. unfold Csv.keeps in Hk.
    apply andb_true_iff in Hk; destruct Hk as [_ Hk].
    apply negb_true_iff in Hk. unfold Csv.is_bad_line in Hk.
    apply Nat.ltb_ge in Hk. unfold Csv.ncols in Hk.
    pose proof (width_of_ge text).
    rewrite length_skipn, pad_length by exact Hk.
    change (List.length Csv.column_names) with 7%nat. lia.
  - reflexivity.
  - intros name Hin.
    destruct (columns_of_aligned text) as (H0 & H1 & H2 & H3 & H4 & H5 & H6).
    rewrite read_csv_columns.
    simpl in Hin.
    repeat (destruct Hin as [<-|Hin];
            [eexists; split; [reflexivity|assumption]|]).
    destruct Hin.
Qed.

End FrameShape.

Lemma read_csv_is_rectangular_witness :
  Csv.plain_text short_line_text = true
  /\ (forall r, In r (Csv.rows short_line_text) -> List.length r = 7%nat)
  /\ map fst (read_csv (B:=reference_backend) short_line_text)
     = Csv.column_names.
Proof.
  split; [reflexivity|].
  destruct (read_csv_is_rectangular (B:=reference_backend) short_line_text
              eq_refl) as (Hrows & Hnames & _).
  split; [exact Hrows|exact Hnames].
Defined.

(** In a quote-free text with seven expected fields, an accepted line can
    be rebuilt from its row: the row starts with the fields of the line,
    which joined by tabs give the line back character for character, and it
    ends with empty fields only. No field holds a tab and no line a line
    feed. *)
Theorem accepted_row_restores_its_line (text : string) (i : nat) (l : string)
    (Hplain : Csv.plain_text text = true)
    (Hwidth : Csv.width_of text = 7%nat)
    (Hl : nth_error (Csv.accepted_lines text) i = Some l) :
  exists row,
    nth_error (Csv.rows text) i = Some row
    /\ String.concat (String Str.tab "") (firstn (Csv.ncols l) row) = l
    /\ skipn (Csv.ncols l) row = repeat EmptyString (7 - Csv.ncols l)
    /\ (forall f, In f (firstn (Csv.ncols l) row) ->
          Str.has_char (Ascii.eqb Str.tab) f = false)
    /\ Str.has_char (Ascii.eqb Str.nl) l = false.
Proof.
  exists (Csv.pad 7 (Csv.fields l)).
  assert (Hf : firstn (Csv.ncols l) (Csv.pad 7 (Csv.fields l)) = Csv.fields l).
  { unfold Csv.pad, Csv.ncols. rewrite firstn_app, Nat.sub_diag, firstn_all.
    simpl. apply app_nil_r. }
  split.
  { unfold Csv.rows. rewrite Hwidth, nth_error_map, Hl. reflexivity. }
  rewrite Hf.
  split; [apply split_on_join|].
  split.
  { unfold Csv.pad, Csv.ncols. rewrite skipn_app, Nat.sub_diag, skipn_all.
    reflexivity. }
  split; [intros f Hin; now apply (split_on_no_sep Str.tab l)|].
  apply nth_error_In in Hl. unfold Csv.accepted_lines in Hl.
  apply filter_In in Hl; destruct Hl as [Hl _].
  unfold Str.lines in Hl.
  destruct (rev (Str.split_on Str.nl text)) as [|[|c s] r] eqn:E.
  - now apply (split_on_no_sep Str.nl text).
  - apply (split_on_no_sep Str.nl text).
    rewrite <- (rev_involutive (Str.split_on Str.nl text)), E.
    cbn [rev]. apply in_or_app; left; exact Hl.
  - now apply (split_on_no_sep Str.nl text).
Qed.

Lemma accepted_row_restores_its_line_witness :
  Csv.plain_text short_line_text = true /\
  exists row,
    nth_error (Csv.rows short_line_text) 1 = Some row
    /\ String.concat (String Str.tab "") (firstn (Csv.ncols short_line) row)
       = short_line
    /\ skipn (Csv.ncols short_line) row
       = repeat EmptyString (7 - Csv.ncols short_line)
    /\ (forall f, In f (firstn (Csv.ncols short_line) row) ->
          Str.has_char (Ascii.eqb Str.tab) f = false)
    /\ Str.has_char (Ascii.eqb Str.nl) short_line = false.
Proof.
  split; [reflexivity|].
  apply (accepted_row_restores_its_line short_line_text 1 short_line);
    vm_compute; reflexivity.
Defined.

Lemma all_some_Forall {A X : Type} (f : X -> option A) (P : A -> Prop)
    (l : list X) (r : list A) :
  (forall x y, f x = Some y -> P y) ->
  all_some (map f l) = Some r -> Forall P r.
Proof.
  intros Hf; revert r; induction l as [|x l IH]; intros r; simpl.
  - intros [= <-]; constructor.
  - destruct (f x) as [y|] eqn:E; [|discriminate].
    destruct (all_some (map f l)) as [r'|]; [|discriminate].
    intros [= <-]; constructor; [now apply (Hf x)|now apply IH].
Qed.

Section Dtypes.

Context {FT : FloatType} {B : Backend}.

Lemma infer_column_dtype (toks : list string) :
  (exists d, forallb (has_dtype d) (infer_column toks) = true)
  /\ (all_some (map cell_int toks) <> None ->
      forallb (has_dtype Int64) (infer_column toks) = true).
Proof.
  assert (Hint : forall c, all_some (map cell_int toks) = Some c ->
                           forallb (has_dtype Int64) c = true).
  { intros c Hc. apply forallb_forall. apply Forall_forall.
    apply (all_some_Forall cell_int _ toks c); [|exact Hc].
    intros x y. unfold cell_int. destruct (Csv.is_na x); [discriminate|].
    destruct (csv_int x); simpl; [intros [= <-]; reflexivity|discriminate]. }
  assert (Hflo : forall c, all_some (map cell_float toks) = Some c ->
                           forallb (has_dtype Float64) c = true).
  { intros c Hc. apply forallb_forall. apply Forall_forall.
    apply (all_some_Forall cell_float _ toks c); [|exact Hc].
    intros x y. unfold cell_float.
    destruct (Csv.is_na x); [intros [= <-]; reflexivity|].
    destruct (csv_float x); simpl; [intros [= <-]; reflexivity|discriminate]. }
  assert (Hboo : forall c, all_some (map cell_bool toks) = Some c ->
                           forallb (has_dtype BoolType) c = true).
  { intros c Hc. apply forallb_forall. apply Forall_forall.
    apply (all_some_Forall cell_bool _ toks c); [|exact Hc].
    intros x y. unfold cell_bool.
    destruct (existsb (String.eqb x) Csv.true_values);
      [intros [= <-]; reflexivity|].
    destruct (existsb (String.eqb x) Csv.false_values);
      [intros [= <-]; reflexivity|discriminate]. }
  assert (Hobj : forallb (has_dtype ObjectType) (map cell_object toks) = true).
  { apply forallb_forall. intros c Hc. apply in_map_iff in Hc.
    destruct Hc as (x & <- & _). unfold cell_object.
    destruct (Csv.is_na x); reflexivity. }
  split.
  - unfold infer_column.
    destruct (all_some (map cell_int toks)) as [c|] eqn:E1;
      [exists Int64; now apply Hint|].
    destruct (all_some (map cell_float toks)) as [c|] eqn:E2;
      [exists Float64; now apply Hflo|].
    destruct (all_some (map cell_bool toks)) as [c|] eqn:E3;
      [exists BoolType; now apply Hboo|].
    exists ObjectType; exact Hobj.
  - unfold infer_column.
    destruct (all_some (map cell_int toks)) as [c|] eqn:E1;
      [intros _; now apply Hint|intros H; now contradiction H].
Qed.

Lemma number_column_has_no_string (toks : list string) (i : nat) (c : cell) :
  nth_error (infer_column toks) i = Some c -> is_number c = true ->
  existsb is_str (infer_column toks) = false.
Proof.
  intros Hi Hnum. destruct (infer_column_dtype toks) as ([d Hd] & _).
  rewrite forallb_forall in Hd.
  pose proof (Hd _ (nth_error_In _ _ Hi)) as Hz.
  destruct (existsb is_str (infer_column toks)) eqn:E; [|reflexivity].
  apply existsb_exists in E. destruct E as (y & Hy & Hs).
  apply Hd in Hy. destruct y; try discriminate Hs.
  destruct d; try discriminate Hy. destruct c; discriminate.
Qed.

Lemma upload_reply_status (env : host_env) (text : string) :
  reply (upload env (Some text))
  = match col_status (columns_of text) with
    | Ok st => Loaded (List.length (Csv.accepted_lines text))
    | Raise e => ServerError e
    end.
Proof.
  rewrite upload_outcome. unfold outcome.
  destruct (col_status (columns_of text)) as [st|e]; [|reflexivity].
  cbn [reply]. f_equal.
  destruct (nrows_frames (columns_of text) st) as (_ & _ & _ & _ & _ & _ & ->).
  apply columns_of_host_length.
Qed.

(** A quote-free text in which every line is blank, and only such a text,
    is ingested as an empty table: the reply reports 0 logs, the previous
    table is replaced by a table without rows, and the readers answer as
    they do before any ingestion. *)
Theorem blank_file_empties_the_table
    (env : host_env) (prev : store) (text : string)
    (Hplain : Csv.plain_text text = true) :
  (reply (upload env (Some text)) = Loaded 0 <->
   forall l, In l (Str.lines text) -> Csv.is_blank_line l = true)
  /\ (reply (upload env (Some text)) = Loaded 0 ->
      exists df,
        store_after prev (upload env (Some text)) = Some df
        /\ map fst df = table_columns
        /\ log_table df = Some []
        /\ stats (log_table df) = stats None
        /\ forall q, search (log_table df) q = search None q).
Proof.
  assert (Hacc : Csv.accepted_lines text = [] <->
                 forall l, In l (Str.lines text) -> Csv.is_blank_line l = true).
  { split.
    - intros Hnil l Hl.
      destruct (Csv.is_blank_line l) eqn:Eb; [reflexivity|exfalso].
      assert (Hd : In l (Csv.data_lines text)).
      { unfold Csv.data_lines. apply filter_In. now rewrite Eb. }
      destruct (Csv.data_lines text) as [|l0 ls] eqn:Ed; [destruct Hd|].
      assert (H0 : In l0 (Csv.data_lines text)) by (rewrite Ed; now left).
      unfold Csv.data_lines in H0. apply filter_In in H0.
      destruct H0 as [H0 Hb0].
      assert (Hk : In l0 (Csv.accepted_lines text)).
      { unfold Csv.accepted_lines. apply filter_In. split; [exact H0|].
        unfold Csv.keeps. rewrite Hb0. cbn [andb].
        unfold Csv.is_bad_line, Csv.width_of. rewrite Ed.
        cbn [Csv.table_width]. apply negb_true_iff, Nat.ltb_ge. lia. }
      rewrite Hnil in Hk. destruct Hk.
    - intros Hall. unfold Csv.accepted_lines.
      induction (Str.lines text) as [|l ls IH]; [reflexivity|].
      cbn [filter]. unfold Csv.keeps at 1.
      rewrite (Hall l (or_introl eq_refl)). cbn [negb andb].
      apply IH. intros l' Hl'. apply Hall. now right. }
  assert (Hcols : Csv.accepted_lines text = [] ->
                  col_status (columns_of text) = Ok []
                  /\ frame6 (columns_of text) []
                     = [("host", []); ("time", []); ("request", []);
                        ("status", []); ("bytes", []); ("dt", [])]).
  { intros Hnil.
    assert (Ht : forall j, infer_column (Csv.column_tokens text j) = []).
    { intros j. unfold Csv.column_tokens, Csv.rows. rewrite Hnil. reflexivity. }
    unfold col_status, frame6, col_time, col_dt, col_request, col_bytes,
      columns_of; cbn [r_host r_epoch r_method r_url r_status r_bytes].
    rewrite !Ht. split; reflexivity. }
  split.
  - rewrite <- Hacc. split.
    + intros Hr. apply upload_loaded in Hr. destruct Hr as (st & _ & Hn).
      symmetry in Hn. now apply length_zero_iff_nil in Hn.
    + intros Hnil. destruct (Hcols Hnil) as [Hst _].
      rewrite upload_reply_status, Hst, Hnil. reflexivity.
  - intros Hr. apply upload_loaded in Hr. destruct Hr as (st & _ & Hn).
    symmetry in Hn. apply length_zero_iff_nil in Hn.
    destruct (Hcols Hn) as [Hst Hf].
    exists (frame6 (columns_of text) []).
    rewrite store_after_upload, Hst. split; [reflexivity|].
    rewrite Hf. repeat split.
Qed.

Lemma astype_int_raises (col : column) (e : exn) :
  astype_int col = Raise e ->
  e = IntCastingNaNError
  /\ exists i c, nth_error col i = Some c
                 /\ astype_int_cell c = Raise IntCastingNaNError.
Proof.
  induction col as [|c col IH]; [discriminate|].
  cbn [astype_int bind].
  destruct (astype_int_cell c) as [c'|e'] eqn:Ec.
  - destruct (astype_int col) as [r|e''] eqn:Er; [discriminate|].
    intros [= <-]. destruct (IH eq_refl) as (-> & i & x & Hi & Hx).
    split; [reflexivity|]. now exists (S i), x.
  - intros [= <-].
    assert (e' = IntCastingNaNError) as ->.
    { destruct c; try (cbn in Ec; congruence).
      cbn in Ec. destruct (float_is_finite f); congruence. }
    split; [reflexivity|]. now exists 0%nat, c.
Qed.

Lemma astype_int_ok_cells (col : column) :
  (forall c, In c col -> exists c', astype_int_cell c = Ok c') ->
  exists st, astype_int col = Ok st.
Proof.
  induction col as [|c col IH]; intros H; [now exists []|].
  destruct (H c (or_introl eq_refl)) as [c' Hc].
  destruct IH as [st Hst]; [intros x Hx; apply H; now right|].
  exists (c' :: st). cbn [astype_int bind]. now rewrite Hc, Hst.
Qed.

Lemma fillna0_map_nth (col : column) (i : nat) (c : cell) :
  nth_error (map fillna0 col) i = Some c <->
  exists x, nth_error col i = Some x /\ c = fillna0 x.
Proof.
  rewrite nth_error_map. destruct (nth_error col i) as [x|]; simpl.
  - split; [intros [= <-]; now exists x|intros (y & [= <-] & ->); reflexivity].
  - split; [discriminate|intros (y & Hy & _); discriminate].
Qed.



End Dtypes.

Lemma blank_file_empties_the_table_witness :
  reply (upload (B:=reference_backend) env_utc (Some blank_text)) = Loaded 0
  /\ exists df,
       store_after sample_store
         (upload (B:=reference_backend) env_utc (Some blank_text)) = Some df
       /\ map fst df = table_columns
       /\ log_table df = Some []
       /\ stats (log_table df) = stats None
       /\ forall q, search (log_table df) q = search None q.
Proof.
  assert (H : reply (upload (B:=reference_backend) env_utc (Some blank_text))
              = Loaded 0) by (vm_compute; reflexivity).
  split; [exact H|].
  exact (proj2 (blank_file_empties_the_table (B:=reference_backend)
                  env_utc sample_store blank_text eq_refl) H).
Defined.



(* ------------------------------------------------------------------------- *)
(** ** Further properties of the statistics *)
(* ------------------------------------------------------------------------- *)

Lemma firstn_In {A : Type} (n : nat) (l : list A) (x : A) :
  In x (firstn n l) -> In x l.
Proof.
  revert l; induction n as [|n IH]; intros [|y l]; simpl; try tauto.
  intros [->|H]; [now left|right; now apply IH].
Qed.

Lemma distinct_length (K : Type) (eqb : K -> K -> bool) (l : list K) :
  (List.length (distinct K eqb l) <= List.length l)%nat.
Proof.
  induction l as [|x l IH]; [apply le_n|].
  cbn [distinct List.length].
  pose proof (filter_length_bound (fun y => negb (eqb x y)) (distinct K eqb l)).
  lia.
Qed.

Lemma count_key_in (K : Type) (eqb : K -> K -> bool) (k : K) (l : list K) :
  eqb k k = true -> In k l -> (1 <= count_key K eqb k l)%nat.
Proof.
  intros Hrefl Hin. unfold count_key.
  assert (H : In k (filter (eqb k) l)) by (apply filter_In; now split).
  destruct (filter (eqb k) l); [destruct H|simpl; lia].
Qed.

Lemma round_half_even_zero (n d : Z) :
  (0 <= n)%Z -> (0 < d)%Z ->
  (round_half_even n d = 0 <-> 2 * n <= d)%Z.
Proof.
  intros Hn Hd. unfold round_half_even.
  pose proof (Z.div_mod n d ltac:(lia)) as Hdm.
  pose proof (Z.mod_pos_bound n d Hd) as Hm.
  pose proof (Z.div_pos n d Hn Hd) as Hq.
  destruct (Z.ltb_spec (2 * (n mod d)) d) as [H1|H1].
  - split; [intros H0; rewrite H0 in Hdm; lia|].
    intros H. destruct (Z.eq_dec (n / d) 0) as [E|E]; [exact E|]. nia.
  - destruct (Z.ltb_spec d (2 * (n mod d))) as [H2|H2].
    + split; [lia|]. intros H. exfalso.
      destruct (Z.eq_dec (n / d) 0) as [E|E]; [rewrite E in Hdm; lia|nia].
    + assert (Heq : (2 * (n mod d) = d)%Z) by lia.
      destruct (Z.even (n / d)) eqn:Ev.
      * split; [intros H0; rewrite H0 in Hdm; lia|].
        intros H. destruct (Z.eq_dec (n / d) 0) as [E|E]; [exact E|]. nia.
      * split; [lia|]. intros H. exfalso.
        destruct (Z.eq_dec (n / d) 0) as [E|E];
          [rewrite E in Ev; discriminate|nia].
Qed.

Lemma round_half_even_exact (q d : Z) :
  (0 < d)%Z -> round_half_even (q * d) d = q.
Proof.
  intros Hd. unfold round_half_even.
  rewrite Z.div_mul, Z.mod_mul by lia.
  destruct (Z.ltb_spec (2 * 0) d); [reflexivity|lia].
Qed.

Lemma fold_min_in (b : Z) (l : list Z) : In (fold_right Z.min b l) (b :: l).
Proof.
  induction l as [|x l IH]; [now left|].
  cbn [fold_right].
  destruct (Z.min_spec x (fold_right Z.min b l)) as [[_ ->]|[_ ->]].
  - right; now left.
  - destruct IH as [<-|H]; [now left|right; now right].
Qed.

Lemma fold_max_in (b : Z) (l : list Z) : In (fold_right Z.max b l) (b :: l).
Proof.
  induction l as [|x l IH]; [now left|].
  cbn [fold_right].
  destruct (Z.max_spec x (fold_right Z.max b l)) as [[_ ->]|[_ ->]].
  - destruct IH as [<-|H]; [now left|right; now right].
  - right; now left.
Qed.

Lemma bucket_interval (ns k : Z) :
  bucket ns = k <->
  (k * Cal.hour_ns <= ns < k * Cal.hour_ns + Cal.hour_ns)%Z.
Proof.
  unfold bucket.
  assert (Hh : (0 < Cal.hour_ns)%Z) by reflexivity.
  pose proof (Z.div_mod ns Cal.hour_ns ltac:(lia)) as Hdm.
  pose proof (Z.mod_pos_bound ns Cal.hour_ns Hh) as Hm.
  split; [intros <-; lia|].
  intros H. symmetry. apply (Z.div_unique ns Cal.hour_ns k (ns - k * Cal.hour_ns)); lia.
Qed.

Section StatsFacts.

Context {FT : FloatType} {B : Backend}.

(** The number of distinct hosts never exceeds the number of records that
    have a host, which never exceeds the number of records; it is zero
    exactly when no record has a host. *)
Theorem unique_ips_bounds (g : option table) :
  (unique_ips (stats g)
   <= List.length (filter (fun r => negb (is_null (host r))) (rows_of g)))%nat
  /\ (List.length (filter (fun r => negb (is_null (host r))) (rows_of g))
      <= total (stats g))%nat
  /\ (unique_ips (stats g) = 0%nat <->
      forall r, In r (rows_of g) -> host r = CNull).
Proof.
  assert (Hnn : forall t : table,
            List.length (non_null (map host t))
            = List.length (filter (fun r => negb (is_null (host r))) t)).
  { intros t. unfold non_null. induction t as [|r t IH]; [reflexivity|].
    cbn [map filter]. destruct (negb (is_null (host r))); simpl; now rewrite IH. }
  destruct g as [[|r0 t]|]; cbn [stats rows_of unique_ips total].
  - split; [simpl; lia|split; [simpl; lia|split; [intros _ r []|reflexivity]]].
  - set (t' := r0 :: t). split; [|split].
    + rewrite <- Hnn. apply distinct_length.
    + apply filter_length_bound.
    + split.
      * intros H0 r Hr.
        destruct (host r) eqn:Eh; [reflexivity|exfalso..];
          (assert (Hin : In (host r) (non_null (map host t')));
           [unfold non_null; apply filter_In; split;
            [now apply in_map|now rewrite Eh]|]);
          (destruct (non_null (map host t')) as [|x l];
           [destruct Hin|discriminate H0]).
      * intros Hall.
        assert (E : non_null (map host t') = []).
        { unfold non_null. induction t' as [|r t'' IH]; [reflexivity|].
          cbn [map filter]. rewrite (Hall r (or_introl eq_refl)). simpl.
          apply IH. intros x Hx. apply Hall. now right. }
        now rewrite E.
  - split; [simpl; lia|split; [simpl; lia|split; [intros _ r []|reflexivity]]].
Qed.


(** The hourly bins are contiguous: each bin starts one hour after the one
    before. A bin counts the valid instants from its start up to, but not
    including, the next hour; every valid instant falls in one of the bins;
    and the first and the last bin are never empty. *)
Theorem hourly_bins_are_contiguous
    (ts : list (option Z)) (bins : list (Z * nat))
    (Hbins : resample_hour_size ts = Ok bins) :
  (forall i a b, nth_error bins i = Some a -> nth_error bins (S i) = Some b ->
     fst b = (fst a + Cal.hour_ns)%Z)
  /\ (forall kv, In kv bins ->
        snd kv = List.length
                   (filter (fun x => ((fst kv <=? x)
                                      && (x <? fst kv + Cal.hour_ns))%Z)
                           (keep_some ts)))
  /\ (forall ns, In ns (keep_some ts) ->
        exists c, In ((bucket ns * Cal.hour_ns)%Z, c) bins /\ (1 <= c)%nat)
  /\ (exists first last_,
        nth_error bins 0 = Some first
        /\ nth_error bins (List.length bins - 1) = Some last_
        /\ (1 <= snd first)%nat /\ (1 <= snd last_)%nat).
Proof.
  unfold resample_hour_size in Hbins.
  destruct (keep_some ts) as [|v vs] eqn:Ev; [discriminate|].
  set (l := v :: vs) in *.
  set (lo := fold_right Z.min (bucket v) (map bucket vs)) in *.
  set (hi := fold_right Z.max (bucket v) (map bucket vs)) in *.
  set (cnt := fun k => List.length (filter (fun x => Z.eqb (bucket x) k) l)).
  injection Hbins as Hbins.
  assert (Hrange : forall x, In x l -> (lo <= bucket x <= hi)%Z).
  { intros x [<-|Hx].
    - split; [exact (proj1 (fold_min_le _ _))|exact (proj1 (fold_max_ge _ _))].
    - split; [apply (proj2 (fold_min_le (bucket v) (map bucket vs)))
             |apply (proj2 (fold_max_ge (bucket v) (map bucket vs)))];
        now apply in_map. }
  assert (Hlohi : (lo <= hi)%Z).
  { pose proof (Hrange v (or_introl eq_refl)). lia. }
  set (n := Z.to_nat (hi - lo + 1)).
  assert (Hn : (1 <= n)%nat) by (unfold n; lia).
  assert (Hnth : forall i, nth_error bins i
            = if (i <? n)%nat
              then Some (((lo + Z.of_nat i) * Cal.hour_ns)%Z,
                         cnt (lo + Z.of_nat i)%Z)
              else None).
  { intros i. rewrite <- Hbins. unfold zrange. rewrite map_map.
    fold n. rewrite nth_error_map_seq. reflexivity. }
  assert (Hblen : List.length bins = n).
  { rewrite <- Hbins. unfold zrange. now rewrite !length_map, length_seq. }
  assert (Hcnt : forall k, cnt k
            = List.length
                (filter (fun x => ((k * Cal.hour_ns <=? x)
                                   && (x <? k * Cal.hour_ns + Cal.hour_ns))%Z)
                        l)).
  { intros k. unfold cnt. f_equal. apply filter_ext. intros x.
    pose proof (bucket_interval x k) as Hb.
    destruct (Z.eqb_spec (bucket x) k) as [E|E];
      destruct (Z.leb_spec (k * Cal.hour_ns) x);
      destruct (Z.ltb_spec x (k * Cal.hour_ns + Cal.hour_ns));
      simpl; try reflexivity; lia. }
  assert (Hpos : forall x, In x l -> (1 <= cnt (bucket x))%nat).
  { intros x Hx. unfold cnt.
    assert (H : In x (filter (fun y => Z.eqb (bucket y) (bucket x)) l)).
    { apply filter_In. split; [exact Hx|apply Z.eqb_refl]. }
    destruct (filter _ l); [destruct H|simpl; lia]. }
  assert (Hin : forall k, (lo <= k <= hi)%Z ->
                          In ((k * Cal.hour_ns)%Z, cnt k) bins).
  { intros k Hk. apply (nth_error_In bins (Z.to_nat (k - lo))).
    rewrite Hnth. destruct (Nat.ltb_spec (Z.to_nat (k - lo)) n) as [_|H];
      [|unfold n in H; lia].
    do 3 f_equal; lia. }
  split; [|split; [|split]].
  - intros i a b Ha Hb. rewrite Hnth in Ha, Hb.
    destruct (i <? n)%nat; [|discriminate].
    destruct (S i <? n)%nat; [|discriminate].
    injection Ha as <-. injection Hb as <-. cbn [fst]. lia.
  - intros kv Hkv. apply In_nth_error in Hkv. destruct Hkv as [i Hi].
    rewrite Hnth in Hi. destruct (i <? n)%nat; [|discriminate].
    injection Hi as <-. cbn [fst snd]. apply Hcnt.
  - intros ns Hns. exists (cnt (bucket ns)).
    split; [apply Hin; now apply Hrange|now apply Hpos].
  - exists ((lo * Cal.hour_ns)%Z, cnt lo), ((hi * Cal.hour_ns)%Z, cnt hi).
    assert (Hlo : exists x, In x l /\ bucket x = lo).
    { destruct (fold_min_in (bucket v) (map bucket vs)) as [H|H].
      - exists v. split; [now left|exact H].
      - apply in_map_iff in H. destruct H as (x & Hx & Hxin).
        exists x. split; [now right|exact Hx]. }
    assert (Hhi : exists x, In x l /\ bucket x = hi).
    { destruct (fold_max_in (bucket v) (map bucket vs)) as [H|H].
      - exists v. split; [now left|exact H].
      - apply in_map_iff in H. destruct H as (x & Hx & Hxin).
        exists x. split; [now right|exact Hx]. }
    split; [|split; [|split]].
    + rewrite Hnth. destruct (Nat.ltb_spec 0 n) as [_|H]; [|lia].
      do 3 f_equal; lia.
    + rewrite Hnth, Hblen. destruct (Nat.ltb_spec (n - 1) n) as [_|H]; [|lia].
      do 3 f_equal; unfold n; lia.
    + cbn [snd]. destruct Hlo as (x & Hx & <-). now apply Hpos.
    + cbn [snd]. destruct Hhi as (x & Hx & <-). now apply Hpos.
Qed.

(** Every entry of the two rankings stands for records of the table: a
    ranked host is the host of a record that has one, a ranked endpoint is
    the second token of a request, and its count lies between 1 and the
    number of records. A missing host is never ranked. *)
Theorem ranked_entries_come_from_records
    (Hcontract : sort_contract B)
    (Hrefl : forall f, float_eqb f f = true)
    (g : option table) :
  (forall s c, In (s, c) (top_ips (stats g)) ->
     (1 <= c <= total (stats g))%nat
     /\ exists r, In r (rows_of g) /\ host r <> CNull
                  /\ s = astype_str (host r)
                  /\ c = count_key cell cell_eqb (host r)
                                   (host_keys (rows_of g)))
  /\ (forall s c, In (s, c) (top_endpoints (stats g)) ->
        (1 <= c <= total (stats g))%nat
        /\ exists r a rest,
             In r (rows_of g)
             /\ Str.split_ws (request r) = a :: s :: rest).
Proof.
  assert (Htop : forall keys k c,
            In (k, c) (top5 cell cell_eqb keys) ->
            In k keys /\ c = count_key cell cell_eqb k keys
            /\ (1 <= c <= List.length keys)%nat).
  { intros keys k c Hin. unfold top5, value_counts in Hin.
    apply firstn_In in Hin.
    apply (Permutation_in _ (proj1 (Hcontract _ _))) in Hin.
    unfold counts_in_order in Hin. apply in_map_iff in Hin.
    destruct Hin as (k' & [= -> <-] & Hd).
    apply distinct_incl in Hd.
    split; [exact Hd|]. split; [reflexivity|]. split.
    - apply count_key_in; [now apply cell_eqb_refl|exact Hd].
    - apply filter_length_bound. }
  assert (Hkeys : forall (f : record -> cell) (t : table),
            (List.length (non_null (map f t)) <= List.length t)%nat).
  { intros f t. unfold non_null.
    pose proof (filter_length_bound (fun c => negb (is_null c)) (map f t)) as H.
    now rewrite length_map in H. }
  destruct g as [[|r0 t]|]; cbn [stats rows_of top_ips top_endpoints total];
    try (split; intros s c []).
  set (t' := r0 :: t). split.
  - intros s c Hin. rewrite top_5_ips_ranked in Hin.
    apply in_map_iff in Hin. destruct Hin as ([k c'] & [= <- <-] & Hin).
    destruct (Htop _ _ _ Hin) as (Hk & Hc & Hb).
    split; [pose proof (Hkeys host t'); unfold host_keys in Hb; lia|].
    unfold host_keys, non_null in Hk. apply filter_In in Hk.
    destruct Hk as [Hk Hnn]. apply in_map_iff in Hk.
    destruct Hk as (r & <- & Hr).
    exists r. split; [exact Hr|]. split; [|split; [reflexivity|exact Hc]].
    intros E. rewrite E in Hnn. discriminate.
  - intros s c Hin. rewrite top_5_endpoints_ranked in Hin.
    apply in_map_iff in Hin. destruct Hin as ([k c'] & [= <- <-] & Hin).
    destruct (Htop _ _ _ Hin) as (Hk & Hc & Hb).
    split; [pose proof (Hkeys token_cell t'); unfold endpoint_keys in Hb; lia|].
    apply endpoint_keys_tokens in Hk.
    destruct Hk as (r & a & tok & rest & Hr & Hs & ->).
    exists r, a, rest. split; [exact Hr|exact Hs].
Qed.

End StatsFacts.


Lemma hourly_bins_are_contiguous_witness :
  exists first last_,
    nth_error [(0%Z, 1%nat); (Cal.hour_ns, 0%nat); ((2 * Cal.hour_ns)%Z, 1%nat)] 0
    = Some first
    /\ nth_error [(0%Z, 1%nat); (Cal.hour_ns, 0%nat);
                  ((2 * Cal.hour_ns)%Z, 1%nat)] 2 = Some last_
    /\ (1 <= snd first)%nat /\ (1 <= snd last_)%nat.
Proof.
  apply (hourly_bins_are_contiguous
           [Some 5%Z; None; Some (2 * Cal.hour_ns + 7)%Z]
           [(0%Z, 1%nat); (Cal.hour_ns, 0%nat); ((2 * Cal.hour_ns)%Z, 1%nat)]).
  vm_compute. reflexivity.
Defined.

Lemma ranked_entries_come_from_records_witness :
  In ("A", 1%nat)
     (top_ips (stats (table_of (B:=reference_backend) six_hosts_text)))
  /\ (1 <= 1
      <= total (stats (table_of (B:=reference_backend) six_hosts_text)))%nat.
Proof.
  assert (H : In ("A", 1%nat)
                 (top_ips (stats (table_of (B:=reference_backend)
                                    six_hosts_text))))
    by (vm_compute; left; reflexivity).
  split; [exact H|].
  exact (proj1 (proj1 (ranked_entries_come_from_records (B:=reference_backend)
                         reference_sort_contract reference_float_eqb_refl
                         (table_of (B:=reference_backend) six_hosts_text))
                  "A" 1%nat H)).
Defined.

(* ------------------------------------------------------------------------- *)
(** ** Further properties of the search *)
(* ------------------------------------------------------------------------- *)

Lemma subseq_trans {A : Type} (l1 l2 l3 : list A) :
  subseq l1 l2 -> subseq l2 l3 -> subseq l1 l3.
Proof.
  intros H12 H23; revert l1 H12.
  induction H23 as [|x l2 l3 H23 IH|x l2 l3 H23 IH]; intros l1 H12.
  - exact H12.
  - apply subseq_skip. now apply IH.
  - inversion H12; subst.
    + apply subseq_skip. now apply IH.
    + apply subseq_take. now apply IH.
Qed.

Lemma subseq_nil_l {A : Type} (l : list A) : subseq [] l.
Proof. induction l; constructor; assumption. Qed.

Lemma subseq_firstn {A : Type} (n : nat) (l : list A) : subseq (firstn n l) l.
Proof.
  revert n; induction l as [|x l IH]; intros [|n]; simpl.
  - apply subseq_nil.
  - apply subseq_nil.
  - apply subseq_nil_l.
  - apply subseq_take, IH.
Qed.

Lemma subseq_select_mask {A : Type} (l : list A) (m : list bool) :
  subseq (select_mask l m) l.
Proof.
  revert m; induction l as [|x l IH]; intros m; [apply subseq_nil|].
  destruct m as [|[] m]; cbn [select_mask].
  - apply subseq_nil_l.
  - apply subseq_take, IH.
  - apply subseq_skip, IH.
Qed.

Lemma subseq_length {A : Type} (l1 l2 : list A) :
  subseq l1 l2 -> (List.length l1 <= List.length l2)%nat.
Proof. induction 1; simpl; lia. Qed.

Lemma lstrip_spaces (w s : string) :
  Str.all_chars Str.is_py_space w = true ->
  Str.lstrip (w ++ s) = Str.lstrip s.
Proof.
  induction w as [|c w IH]; [reflexivity|].
  unfold Str.all_chars; cbn [list_ascii_of_string forallb].
  intros H. apply andb_true_iff in H. destruct H as [Hc Hw].
  cbn [append Str.lstrip]. rewrite Hc. now apply IH.
Qed.

Lemma lstrip_app (a b : string) :
  Str.lstrip (a ++ b)
  = match Str.lstrip a with
    | EmptyString => Str.lstrip b
    | _ => (Str.lstrip a ++ b)%string
    end.
Proof.
  induction a as [|c a IH]; cbn [append Str.lstrip].
  - destruct (Str.lstrip b); reflexivity.
  - destruct (Str.is_py_space c); [exact IH|reflexivity].
Qed.

Lemma list_ascii_app (a b : string) :
  list_ascii_of_string (a ++ b)
  = list_ascii_of_string a ++ list_ascii_of_string b.
Proof. induction a as [|c a IH]; simpl; [reflexivity|now rewrite IH]. Qed.

Lemma string_of_list_app (a b : list ascii) :
  string_of_list_ascii (a ++ b)
  = (string_of_list_ascii a ++ string_of_list_ascii b)%string.
Proof. induction a as [|c a IH]; simpl; [reflexivity|now rewrite IH]. Qed.

Lemma rev_string_app (a b : string) :
  Str.rev_string (a ++ b) = (Str.rev_string b ++ Str.rev_string a)%string.
Proof.
  unfold Str.rev_string. now rewrite list_ascii_app, rev_app_distr,
    string_of_list_app.
Qed.

Lemma rev_string_spaces (w : string) :
  Str.all_chars Str.is_py_space w = true ->
  Str.all_chars Str.is_py_space (Str.rev_string w) = true.
Proof.
  unfold Str.all_chars, Str.rev_string.
  rewrite list_ascii_of_string_of_list_ascii, !forallb_forall.
  intros H c Hc. apply H. now apply in_rev.
Qed.

Lemma lstrip_all_spaces (w : string) :
  Str.all_chars Str.is_py_space w = true -> Str.lstrip w = EmptyString.
Proof.
  induction w as [|c w IH]; [reflexivity|].
  unfold Str.all_chars; cbn [list_ascii_of_string forallb].
  intros H. apply andb_true_iff in H. destruct H as [Hc Hw].
  cbn [Str.lstrip]. rewrite Hc. now apply IH.
Qed.

(** Whitespace around a string does not change what [strip] returns. *)
Lemma strip_surrounding_spaces (w1 q w2 : string) :
  Str.all_chars Str.is_py_space w1 = true ->
  Str.all_chars Str.is_py_space w2 = true ->
  Str.strip (w1 ++ q ++ w2) = Str.strip q.
Proof.
  intros H1 H2. unfold Str.strip.
  rewrite (lstrip_spaces w1 _ H1), lstrip_app.
  destruct (Str.lstrip q) as [|c q'] eqn:Eq.
  - now rewrite (lstrip_all_spaces w2 H2).
  - rewrite rev_string_app.
    now rewrite (lstrip_spaces _ _ (rev_string_spaces w2 H2)).
Qed.

Lemma lower_empty (s : string) : Str.lower s = EmptyString <-> s = EmptyString.
Proof. destruct s; simpl; split; congruence. Qed.

Lemma is_digit_not_sign (c : ascii) (r : string) :
  Str.is_digit c = true ->
  Str.parse_signed (String c r) = Str.parse_digits (String c r).
Proof.
  destruct c as [[] [] [] [] [] [] [] []]; try discriminate; reflexivity.
Qed.

Lemma digit_char_code (d : Z) :
  (0 <= d < 10)%Z ->
  nat_of_ascii (Str.digit_char d) = (48 + Z.to_nat d)%nat.
Proof.
  intros H. unfold Str.digit_char. apply nat_ascii_embedding. lia.
Qed.

Lemma digit_char_is_digit (d : Z) :
  (0 <= d < 10)%Z -> Str.is_digit (Str.digit_char d) = true.
Proof.
  intros H. unfold Str.is_digit. rewrite (digit_char_code d H).
  apply andb_true_iff. split; apply Nat.leb_le; lia.
Qed.

Lemma digits_fuel_digits (fuel : nat) (n : Z) (acc : string) :
  Str.all_chars Str.is_digit acc = true ->
  Str.all_chars Str.is_digit (Str.digits_fuel fuel n acc) = true.
Proof.
  revert n acc; induction fuel as [|k IH]; intros n acc Hacc; [exact Hacc|].
  cbn [Str.digits_fuel].
  assert (H' : Str.all_chars Str.is_digit
                 (String (Str.digit_char (n mod 10)) acc) = true).
  { unfold Str.all_chars in *. cbn [list_ascii_of_string forallb].
    rewrite Hacc, digit_char_is_digit; [reflexivity|].
    apply Z.mod_pos_bound; lia. }
  destruct (n <? 10)%Z; [exact H'|now apply IH].
Qed.

Lemma digits_fuel_nonempty (fuel : nat) (n : Z) (acc : string) :
  acc <> EmptyString -> Str.digits_fuel fuel n acc <> EmptyString.
Proof.
  revert n acc; induction fuel as [|k IH]; intros n acc Hacc; [exact Hacc|].
  cbn [Str.digits_fuel]. destruct (n <? 10)%Z; [discriminate|].
  apply IH. discriminate.
Qed.

Lemma digits_fuel_value (fuel : nat) (n : Z) (acc : string) :
  (0 <= n < 2 ^ Z.of_nat fuel)%Z ->
  exists m : Z, (0 <= m)%Z /\ forall a,
    Str.digits_value a (Str.digits_fuel fuel n acc)
    = Str.digits_value (a * 10 ^ m + n) acc.
Proof.
  revert n acc; induction fuel as [|k IH]; intros n acc Hn.
  - exists 0%Z. split; [lia|]. intros a. cbn [Str.digits_fuel].
    f_equal. change (2 ^ Z.of_nat 0)%Z with 1%Z in Hn. lia.
  - cbn [Str.digits_fuel].
    assert (Hmod : (0 <= n mod 10 < 10)%Z) by (apply Z.mod_pos_bound; lia).
    assert (Hstep : forall a,
              Str.digits_value a (String (Str.digit_char (n mod 10)) acc)
              = Str.digits_value (10 * a + n mod 10) acc).
    { intros a. cbn [Str.digits_value]. rewrite (digit_char_code _ Hmod).
      f_equal. lia. }
    destruct (Z.ltb_spec n 10) as [Hlt|Hge].
    + exists 1%Z. split; [lia|]. intros a. rewrite Hstep. f_equal.
      rewrite Z.mod_small by lia. lia.
    + assert (Hdiv : (0 <= n / 10 < 2 ^ Z.of_nat k)%Z).
      { split; [apply Z.div_pos; lia|].
        rewrite Nat2Z.inj_succ, Z.pow_succ_r in Hn by lia.
        apply Z.div_lt_upper_bound; lia. }
      destruct (IH (n / 10)%Z (String (Str.digit_char (n mod 10)) acc) Hdiv)
        as (m & Hm & Hv).
      exists (m + 1)%Z. split; [lia|]. intros a.
      rewrite Hv, Hstep. f_equal.
      rewrite Z.pow_add_r, Z.pow_1_r by lia.
      pose proof (Z.div_mod n 10 ltac:(lia)). lia.
Qed.

(** [str(n)] is a decimal numeral that reads back as [n]. *)
Lemma of_Z_reads_back (z : Z) : Str.parse_signed (Str.of_Z z) = Some z.
Proof.
  unfold Str.of_Z.
  set (a := Z.abs z).
  set (body := Str.digits_fuel (S (Z.to_nat (Z.log2 a))) a EmptyString).
  assert (Ha : (0 <= a < 2 ^ Z.of_nat (S (Z.to_nat (Z.log2 a))))%Z).
  { split; [unfold a; lia|].
    rewrite Nat2Z.inj_succ, Z2Nat.id by apply Z.log2_nonneg.
    destruct (Z.eq_dec a 0) as [->|Hne]; [reflexivity|].
    apply Z.log2_spec. unfold a in *. lia. }
  destruct (digits_fuel_value _ a EmptyString Ha) as (m & _ & Hv).
  fold body in Hv. specialize (Hv 0%Z). cbn [Str.digits_value] in Hv.
  rewrite Z.mul_0_l, Z.add_0_l in Hv.
  assert (Hd : Str.all_chars Str.is_digit body = true)
    by (apply digits_fuel_digits; reflexivity).
  assert (Hne : body <> EmptyString).
  { unfold body. cbn [Str.digits_fuel].
    destruct (a <? 10)%Z; [discriminate|].
    apply digits_fuel_nonempty. discriminate. }
  assert (Hp : Str.parse_digits body = Some a).
  { unfold Str.parse_digits. destruct body as [|c r]; [now contradiction Hne|].
    now rewrite Hd, Hv. }
  destruct (Z.ltb_spec z 0) as [Hneg|Hpos].
  - cbn [Str.parse_signed]. rewrite Hp. cbn [option_map]. f_equal.
    unfold a. lia.
  - destruct body as [|c r] eqn:Eb; [now contradiction Hne|].
    rewrite is_digit_not_sign.
    + rewrite Hp. f_equal. unfold a. lia.
    + unfold Str.all_chars in Hd. cbn [list_ascii_of_string forallb] in Hd.
      now apply andb_true_iff in Hd.
Qed.

Section SearchFacts.

Context {FT : FloatType} {B : Backend}.


(** Surrounding whitespace in the query is ignored: a query and the same
    query wrapped in whitespace get the same answer. *)
Theorem search_ignores_surrounding_whitespace
    (g : option table) (w1 q w2 : string)
    (H1 : Str.all_chars Str.is_py_space w1 = true)
    (H2 : Str.all_chars Str.is_py_space w2 = true) :
  search g (w1 ++ q ++ w2) = search g q.
Proof.
  unfold search. now rewrite (strip_surrounding_spaces w1 q w2 H1 H2).
Qed.

(** The letter case of a literal query does not matter: two queries without
    metacharacter that differ only in letter case get the same answer. *)
Theorem search_ignores_query_case
    (Hre : re_literal_law B) (g : option table) (a b : string)
    (Ha : regex_plain (Str.strip a) = true)
    (Hb : regex_plain (Str.strip b) = true)
    (Hcase : Str.lower (Str.strip a) = Str.lower (Str.strip b)) :
  search g a = search g b.
Proof.
  unfold search. destruct g as [[|r0 t]|]; try reflexivity.
  assert (He : String.eqb (Str.strip a) "" = String.eqb (Str.strip b) "").
  { destruct (String.eqb_spec (Str.strip a) "") as [E|E];
      destruct (String.eqb_spec (Str.strip b) "") as [E'|E'];
      try reflexivity; exfalso.
    - apply E'. apply lower_empty. rewrite <- Hcase, E. reflexivity.
    - apply E. apply lower_empty. rewrite Hcase, E'. reflexivity. }
  rewrite He. destruct (String.eqb (Str.strip b) ""); [reflexivity|].
  rewrite !(str_contains_literal _ _ Hre) by assumption.
  assert (Hm : map (Str.icontains (Str.strip a)) (map request (r0 :: t))
               = map (Str.icontains (Str.strip b)) (map request (r0 :: t))).
  { apply map_ext. intros s. unfold Str.icontains. now rewrite Hcase. }
  now rewrite Hm.
Qed.

(** The status of a result is the decimal numeral of the stored status:
    reading it back gives the integer, so different statuses are never
    rendered alike. *)
Theorem rendered_status_reads_back (r : record) :
  exists s, In ("status"%string, s) (render r)
            /\ Str.parse_signed s = Some (status r)
            /\ forall r', In ("status"%string, s) (render r') ->
                          status r' = status r.
Proof.
  exists (Str.of_Z (status r)).
  split; [simpl; do 3 right; now left|].
  split; [apply of_Z_reads_back|].
  intros r' Hin. simpl in Hin.
  destruct Hin as [H|[H|[H|[H|[H|[]]]]]]; try discriminate H.
  injection H as H.
  pose proof (of_Z_reads_back (status r')) as Hr'.
  rewrite H, of_Z_reads_back in Hr'. congruence.
Qed.

End SearchFacts.

Lemma search_ignores_surrounding_whitespace_witness :
  search (table_of (B:=reference_backend) sample_line) ("  " ++ "GET" ++ " ")
  = search (table_of (B:=reference_backend) sample_line) "GET".
Proof.
  apply (search_ignores_surrounding_whitespace (B:=reference_backend)
           (table_of (B:=reference_backend) sample_line) "  " "GET" " ");
    reflexivity.
Defined.

Lemma search_ignores_query_case_witness :
  search (table_of (B:=reference_backend) sample_line) "Shuttle"
  = search (table_of (B:=reference_backend) sample_line) "sHUTTLE".
Proof.
  apply (search_ignores_query_case (B:=reference_backend)
           reference_re_literal
           (table_of (B:=reference_backend) sample_line) "Shuttle" "sHUTTLE");
    vm_compute; reflexivity.
Defined.

(* ------------------------------------------------------------------------- *)
(** ** The analysis handler *)
(* ------------------------------------------------------------------------- *)

Lemma str_contains_length {FT : FloatType} {B : Backend}
    (q : string) (col : list string) (mask : list bool) :
  str_contains q col = Ok mask -> List.length mask = List.length col.
Proof.
  revert mask; induction col as [|s col IH]; intros mask; cbn [str_contains bind].
  - intros [= <-]; reflexivity.
  - destruct (re_search_icase q s); [|discriminate].
    destruct (str_contains q col) as [m|]; [|discriminate].
    intros [= <-]. simpl. f_equal. now apply IH.
Qed.

Lemma map2_map {X Y Z' W : Type} (f : Y -> Z' -> W) (g : X -> Y) (h : X -> Z')
    (l : list X) :
  map2 f (map g l) (map h l) = map (fun x => f (g x) (h x)) l.
Proof. induction l as [|x l IH]; simpl; [reflexivity|now rewrite IH]. Qed.

Lemma first_response_skips (ask : string -> model_answer)
    (before after : list string) (m e0 : string) :
  (forall m', In m' before -> exists err, ask m' = NoAnswer err) ->
  (forall err, ask m <> NoAnswer err) ->
  first_response ask (before ++ m :: after) e0 = inr (ask m).
Proof.
  revert e0; induction before as [|b before IH]; intros e0 Hfail Hans.
  - cbn [app first_response]. destruct (ask m) eqn:E; try reflexivity.
    now contradiction (Hans err).
  - cbn [app first_response].
    destruct (Hfail b (or_introl eq_refl)) as [err ->].
    apply IH; [|exact Hans]. intros m' Hm'. apply Hfail. now right.
Qed.

Lemma first_response_all_fail (ask : string -> model_answer)
    (models : list string) (last_model e0 : string) :
  (forall m, In m (models ++ [last_model]) -> exists err, ask m = NoAnswer err) ->
  exists err, ask last_model = NoAnswer err
              /\ first_response ask (models ++ [last_model]) e0 = inl err.
Proof.
  revert e0; induction models as [|b models IH]; intros e0 Hfail.
  - destruct (Hfail last_model (or_introl eq_refl)) as [err Herr].
    exists err. split; [exact Herr|]. cbn [app first_response].
    now rewrite Herr.
  - cbn [app first_response].
    destruct (Hfail b (or_introl eq_refl)) as [err ->].
    apply IH. intros m' Hm'. apply Hfail. now right.
Qed.

Lemma first_response_inr (ask : string -> model_answer)
    (models : list string) (e0 : string) (a : model_answer) :
  first_response ask models e0 = inr a ->
  exists m, In m models /\ ask m = a /\ forall err, a <> NoAnswer err.
Proof.
  revert e0; induction models as [|b models IH]; intros e0; [discriminate|].
  cbn [first_response]. destruct (ask b) as [err|text|err] eqn:Eb.
  - intros H. destruct (IH _ H) as (m & Hm & Ha & Hn).
    exists m. split; [now right|]. now split.
  - intros [= <-]. exists b. split; [now left|]. split; [exact Eb|discriminate].
  - intros [= <-]. exists b. split; [now left|]. split; [exact Eb|discriminate].
Qed.

Lemma remove_aux_skip_plain (p : ascii) (pat body rest : string) :
  Str.has_char (Ascii.eqb p) body = false ->
  Py.remove_aux (String p pat) 0 (body ++ rest)
  = (body ++ Py.remove_aux (String p pat) 0 rest)%string.
Proof.
  induction body as [|c body IH]; [reflexivity|].
  unfold Str.has_char; cbn [list_ascii_of_string existsb].
  intros H. apply orb_false_iff in H. destruct H as [Hc Hb].
  cbn [append Py.remove_aux String.prefix].
  destruct (ascii_dec p c) as [->|_]; [now rewrite Ascii.eqb_refl in Hc|].
  f_equal. now apply IH.
Qed.

Lemma rev_string_involutive (s : string) : Str.rev_string (Str.rev_string s) = s.
Proof.
  unfold Str.rev_string.
  now rewrite list_ascii_of_string_of_list_ascii, rev_involutive,
    string_of_list_ascii_of_string.
Qed.

Lemma string_app_assoc (a b c : string) :
  ((a ++ b) ++ c = a ++ b ++ c)%string.
Proof. induction a as [|x a IH]; simpl; [reflexivity|now rewrite IH]. Qed.

(** A text that starts and ends with a code fence has nothing to strip. *)
Lemma strip_fenced (x : string) :
  Str.strip (Py.fence ++ x ++ Py.fence) = (Py.fence ++ x ++ Py.fence)%string.
Proof.
  unfold Str.strip.
  change (Str.lstrip (Py.fence ++ x ++ Py.fence))
    with (Py.fence ++ x ++ Py.fence)%string.
  replace (Py.fence ++ x ++ Py.fence)%string
    with ((Py.fence ++ x) ++ Py.fence)%string at 1
    by (now rewrite !string_app_assoc).
  rewrite rev_string_app.
  change (Str.lstrip (Str.rev_string Py.fence ++ Str.rev_string (Py.fence ++ x)))
    with (Str.rev_string Py.fence ++ Str.rev_string (Py.fence ++ x))%string.
  rewrite <- rev_string_app, rev_string_involutive.
  now rewrite !string_app_assoc.
Qed.

Lemma prefix_json_app (body : string) :
  String.prefix "json" body = false ->
  String.prefix "json" (body ++ Py.fence) = false.
Proof.
  intros H.
  destruct (String.prefix "json" (body ++ Py.fence)) eqn:E; [exfalso|reflexivity].
  apply prefix_app in E. destruct E as [b E].
  destruct body as [|c1 [|c2 [|c3 [|c4 body]]]]; vm_compute in E;
    try congruence.
  injection E as -> -> -> -> _.
  assert (Ht : String.prefix "json" ("json" ++ body) = true)
    by (apply prefix_app; now exists body).
  cbn [append] in Ht. congruence.
Qed.

Lemma remove_aux_skip (pat a x : string) :
  Py.remove_aux pat (String.length a) (a ++ x) = Py.remove_aux pat 0 x.
Proof. induction a as [|c a IH]; [reflexivity|exact IH]. Qed.

Lemma remove_aux_at_match (p : ascii) (pat x : string) :
  Py.remove_aux (String p pat) 0 (String p pat ++ x)
  = Py.remove_aux (String p pat) 0 x.
Proof.
  cbn [append Py.remove_aux].
  assert (Ht : String.prefix (String p pat) (String p (pat ++ x)) = true)
    by (apply prefix_app; now exists x).
  rewrite Ht.
  replace (String.length (String p pat) - 1)%nat with (String.length pat)
    by (cbn [String.length]; lia).
  apply remove_aux_skip.
Qed.

(** A fenced answer is unwrapped: for a body without backtick, the fence,
    with or without the language tag "json", and the whitespace around it
    are removed, and what is parsed is the stripped body. *)
Theorem clean_response_unwraps_fence (w1 w2 body : string)
    (H1 : Str.all_chars Str.is_py_space w1 = true)
    (H2 : Str.all_chars Str.is_py_space w2 = true)
    (Hbody : Str.has_char (Ascii.eqb Py.backtick) body = false) :
  clean_response (w1 ++ (Py.fence ++ ("json" ++ body) ++ Py.fence) ++ w2)
  = Str.strip body
  /\ (String.prefix "json" body = false ->
      clean_response (w1 ++ (Py.fence ++ body ++ Py.fence) ++ w2)
      = Str.strip body).
Proof.
  assert (Htail : forall pat,
            Py.remove_aux (String Py.backtick pat) 0 (body ++ Py.fence)
            = (body ++ Py.remove_aux (String Py.backtick pat) 0 Py.fence)%string).
  { intros pat. now apply remove_aux_skip_plain. }
  assert (Hfence : Py.remove Py.fence (body ++ Py.fence) = body).
  { unfold Py.remove. change Py.fence with (String Py.backtick
      (String Py.backtick (String Py.backtick ""))) at 1.
    rewrite Htail.
    change (Py.remove_aux _ 0 Py.fence) with EmptyString.
    clear. induction body as [|c b IH]; simpl; [reflexivity|now rewrite IH]. }
  assert (Hpre : forall x, String.prefix Py.fence (Py.fence ++ x) = true).
  { intros x. apply prefix_app. now exists x. }
  split.
  - unfold clean_response.
    rewrite (strip_surrounding_spaces w1 _ w2 H1 H2), strip_fenced, Hpre.
    replace (Py.fence ++ ("json" ++ body) ++ Py.fence)%string
      with ((Py.fence ++ "json") ++ body ++ Py.fence)%string
      by (now rewrite !string_app_assoc).
    unfold Py.remove at 2.
    change (Py.fence ++ "json")%string
      with (String Py.backtick
              (String Py.backtick (String Py.backtick "json"))).
    rewrite remove_aux_at_match, Htail.
    change (Py.remove_aux _ 0 Py.fence) with Py.fence.
    now rewrite Hfence.
  - intros Hj. unfold clean_response.
    rewrite (strip_surrounding_spaces w1 _ w2 H1 H2), strip_fenced, Hpre.
    assert (Hkeep : Py.remove (Py.fence ++ "json")
                      (Py.fence ++ body ++ Py.fence)
                    = (Py.fence ++ body ++ Py.fence)%string).
    { pose proof (prefix_json_app body Hj) as Hp.
      unfold Py.remove.
      change (Py.fence ++ "json")%string
        with (String Py.backtick
                (String Py.backtick (String Py.backtick "json"))).
      change (Py.fence ++ body ++ Py.fence)%string
        with (String Py.backtick
                (String Py.backtick
                   (String Py.backtick (body ++ Py.fence)))).
      destruct body as [|c b].
      - reflexivity.
      - unfold Str.has_char in Hbody;
          cbn [list_ascii_of_string existsb] in Hbody.
        apply orb_false_iff in Hbody. destruct Hbody as [Hc Hb].
        assert (Hne : Py.backtick <> c).
        { intros <-. now rewrite Ascii.eqb_refl in Hc. }
        cbn [Py.remove_aux String.prefix append].
        destruct (ascii_dec Py.backtick Py.backtick) as [_|F];
          [|now contradiction F].
        destruct (ascii_dec Py.backtick c) as [E|_]; [now contradiction Hne|].
        cbn [append String.prefix] in Hp.
        change (ascii_of_nat 106) with "j"%char.
        destruct (ascii_dec "j" c) as [<-|_].
        + rewrite Hp. do 4 f_equal.
          assert (Hb' : Str.has_char (Ascii.eqb Py.backtick) b = false)
            by exact Hb.
          rewrite (remove_aux_skip_plain Py.backtick _ b Py.fence Hb').
          reflexivity.
        + do 4 f_equal.
          assert (Hb' : Str.has_char (Ascii.eqb Py.backtick) b = false)
            by exact Hb.
          rewrite (remove_aux_skip_plain Py.backtick _ b Py.fence Hb').
          reflexivity. }
    rewrite Hkeep.
    assert (Hdrop : Py.remove Py.fence (Py.fence ++ body ++ Py.fence)
                    = Py.remove Py.fence (body ++ Py.fence)).
    { unfold Py.remove.
      change Py.fence with (String Py.backtick
        (String Py.backtick (String Py.backtick ""))) at 1 2 4.
      apply remove_aux_at_match. }
    now rewrite Hdrop, Hfence.
Qed.

Section AnalystFacts.

Context {FT : FloatType} {B : Backend}.

Lemma suspicious_by_mask (t s : table) :
  suspicious t = Ok s ->
  exists mask,
    str_contains keyword_pattern (map request t) = Ok mask
    /\ s = select_mask t (map2 orb (map is_failure t) mask)
    /\ (forall r, In r t -> is_failure r = true -> In r s).
Proof.
  intros Hs. unfold suspicious in Hs.
  destruct (str_contains keyword_pattern (map request t)) as [mask|e] eqn:Em;
    [|discriminate].
  cbn [bind] in Hs. injection Hs as Hs.
  pose proof (str_contains_length _ _ _ Em) as Hlen.
  rewrite length_map in Hlen.
  assert (Hin : forall r, In r t -> is_failure r = true ->
                  In r (select_mask t (map2 orb (map is_failure t) mask))).
  { clear Hs Em. revert mask Hlen.
    induction t as [|x t IH]; intros mask Hlen r Hr Hf; [destruct Hr|].
    destruct mask as [|b mask]; [discriminate|].
    injection Hlen as Hlen. cbn [map map2 select_mask].
    destruct Hr as [->|Hr].
    - rewrite Hf. cbn [orb]. now left.
    - destruct (is_failure x || b); [right|]; now apply IH. }
  assert (Heq : s = select_mask t (map2 orb (map is_failure t) mask)).
  { destruct (select_mask t (map2 orb (map is_failure t) mask)) as [|x l] eqn:E;
      [|now symmetry].
    rewrite <- Hs. clear Hs.
    destruct (filter is_failure t) as [|r l] eqn:Ef; [reflexivity|exfalso].
    assert (Hr : In r (filter is_failure t)) by (rewrite Ef; now left).
    apply filter_In in Hr. destruct Hr as [Hr Hf].
    exact (Hin r Hr Hf). }
  exists mask. split; [reflexivity|]. split; [exact Heq|].
  rewrite Heq. exact Hin.
Qed.

(** The records sent for analysis, whatever the regular-expression engine
    answers: they are selected by one mask, in table order; the second
    filter, applied when the first selects nothing, never changes the
    selection; and every record whose status is 400 or more is selected. *)
Theorem suspicious_selection (t s : table) (Hs : suspicious t = Ok s) :
  (exists mask,
      str_contains keyword_pattern (map request t) = Ok mask
      /\ s = select_mask t (map2 orb (map is_failure t) mask))
  /\ subseq s t
  /\ (forall r, In r t -> is_failure r = true -> In r s).
Proof.
  destruct (suspicious_by_mask t s Hs) as (mask & Hm & Heq & Hin).
  split; [now exists mask|]. split; [|exact Hin].
  rewrite Heq. apply subseq_select_mask.
Qed.

(** With an engine that reads the pattern as its five alternatives, the
    records sent for analysis are exactly those whose status is 400 or more
    or whose request contains admin, login, UNION, SELECT or etc/passwd in
    any letter case. *)
Theorem suspicious_is_failure_or_keyword (Hre : re_keywords_law B) (t : table) :
  suspicious t
  = Ok (filter (fun r => is_failure r
                         || existsb (fun k => Str.icontains k (request r))
                                    keywords) t).
Proof.
  assert (Hm : str_contains keyword_pattern (map request t)
               = Ok (map (fun r => existsb (fun k => Str.icontains k (request r))
                                           keywords) t)).
  { induction t as [|r t IH]; [reflexivity|].
    cbn [map str_contains]. rewrite Hre, IH. reflexivity. }
  destruct (suspicious t) as [s|e] eqn:Es.
  - destruct (suspicious_by_mask t s Es) as (mask & Hmask & -> & _).
    rewrite Hm in Hmask. injection Hmask as <-.
    rewrite map2_map. f_equal.
    apply (select_mask_filter
             (fun r => is_failure r
                       || existsb (fun k => Str.icontains k (request r))
                                  keywords) t).
  - unfold suspicious in Es. rewrite Hm in Es. discriminate.
Qed.

(** The log block has one line per sampled record: the sample holds
    min(15, number of suspicious records) records, each a suspicious record
    and none taken twice; when there are at most 15 suspicious records,
    every one of them gets its line. *)
Theorem log_block_lines {J : Type} (sv : services J)
    (Hsample : sample_contract sv) (s : table) :
  exists picked,
    log_block sv s = String.concat Py.newline (map _row_to_log_line picked)
    /\ List.length picked = Nat.min 15 (List.length s)
    /\ (List.length picked <= 15)%nat
    /\ (exists rest, Permutation (picked ++ rest) s)
    /\ (forall r, In r picked -> In r s)
    /\ ((List.length s <= 15)%nat -> Permutation picked s).
Proof.
  set (n := Nat.min 15 (List.length s)).
  destruct (Hsample record n s ltac:(unfold n; lia)) as (Hlen & rest & Hperm).
  exists (sample sv record n s).
  split; [reflexivity|]. split; [exact Hlen|]. split; [rewrite Hlen; unfold n; lia|].
  split; [now exists rest|]. split.
  - intros r Hr. apply (Permutation_in _ Hperm). apply in_or_app. now left.
  - intros Hle.
    pose proof (Permutation_length Hperm) as Hl.
    rewrite length_app, Hlen in Hl.
    assert (Hrest : rest = []).
    { apply length_zero_iff_nil. unfold n in Hl. lia. }
    rewrite Hrest, app_nil_r in Hperm. exact Hperm.
Qed.

(** With a table, a usable API key and a selection that succeeds, the
    models are tried in the listed order and the answer of the first one
    whose call does not raise is used: models after it are not consulted,
    and an answer that parses is returned as the analysis. *)
Theorem analyze_uses_first_answering_model {J : Type} (sv : services J)
    (r0 : record) (t s : table) (key : string)
    (before after : list string) (m text : string)
    (Hkey : key <> ""%string)
    (Hs : suspicious (r0 :: t) = Ok s)
    (Hmodels : possible_models = before ++ m :: after)
    (Hfail : forall m', In m' before ->
               exists err,
                 generate sv (full_prompt (log_block sv s)) m' = NoAnswer err)
    (Hans : generate sv (full_prompt (log_block sv s)) m = Answer text) :
  analyze sv (Some (r0 :: t)) (Some key)
  = match json_loads sv (clean_response text) with
    | inl err => ManualReview (JsonFailure err)
    | inr j => Analysis j
    end.
Proof.
  unfold analyze. rewrite Hs.
  destruct key as [|c key]; [now contradiction Hkey|].
  cbn [key_usable negb]. rewrite Hmodels.
  rewrite (first_response_skips _ before after m "" Hfail)
    by (intros err; rewrite Hans; discriminate).
  rewrite Hans. reflexivity.
Qed.

(** When the call raises for every model, the handler answers with the
    manual-review placeholder, and the error it reports is the one of the
    last model of the list, gemini-1.0-pro. *)
Theorem analyze_reports_last_model_error {J : Type} (sv : services J)
    (r0 : record) (t s : table) (key : string)
    (Hkey : key <> ""%string)
    (Hs : suspicious (r0 :: t) = Ok s)
    (Hfail : forall m, In m possible_models ->
               exists err,
                 generate sv (full_prompt (log_block sv s)) m = NoAnswer err) :
  exists err,
    generate sv (full_prompt (log_block sv s)) "gemini-1.0-pro" = NoAnswer err
    /\ analyze sv (Some (r0 :: t)) (Some key)
       = ManualReview (AllModelsFailed err).
Proof.
  unfold analyze. rewrite Hs.
  destruct key as [|c key]; [now contradiction Hkey|].
  cbn [key_usable negb].
  destruct (first_response_all_fail
              (generate sv (full_prompt (log_block sv s)))
              ["gemini-1.5-flash"; "gemini-1.5-flash-001"; "gemini-1.5-pro";
               "gemini-pro"]
              "gemini-1.0-pro" "" Hfail) as (err & Herr & Hfirst).
  exists err. split; [exact Herr|].
  change (["gemini-1.5-flash"; "gemini-1.5-flash-001"; "gemini-1.5-pro";
           "gemini-pro"] ++ ["gemini-1.0-pro"]) with possible_models in Hfirst.
  now rewrite Hfirst.
Qed.

(** What each reply of the handler means. The 400 error is given exactly
    when there is no record; the 500 error exactly when there are records,
    the selection succeeds and the API key is missing or empty; and an
    analysis is never made up: it is the parsed, cleaned answer one of the
    listed models gave to the prompt built from the sampled suspicious
    records, obtained with a usable key. *)
Theorem analyze_replies {J : Type} (sv : services J)
    (g : option table) (api_key : option string) :
  (analyze sv g api_key = NoLogsLoaded <-> rows_of g = [])
  /\ (analyze sv g api_key = ApiKeyNotSet <->
      rows_of g <> [] /\ (exists s, suspicious (rows_of g) = Ok s)
      /\ key_usable api_key = false)
  /\ (forall j, analyze sv g api_key = Analysis j ->
        key_usable api_key = true
        /\ exists s m text,
             suspicious (rows_of g) = Ok s
             /\ In m possible_models
             /\ generate sv (full_prompt (log_block sv s)) m = Answer text
             /\ json_loads sv (clean_response text) = inr j).
Proof.
  destruct g as [[|r0 t]|]; cbn [rows_of].
  - split; [split; reflexivity|]. split; [|discriminate].
    split; [discriminate|intros (H & _); now contradiction H].
  - unfold analyze.
    destruct (suspicious (r0 :: t)) as [s|e] eqn:Es.
    + destruct (key_usable api_key) eqn:Ek; cbn [negb].
      * destruct (first_response (generate sv (full_prompt (log_block sv s)))
                    possible_models "") as [err|a] eqn:Ef.
        -- split; [split; discriminate|]. split; [|discriminate].
           split; [discriminate|intros (_ & _ & H); discriminate H].
        -- destruct (first_response_inr _ _ _ _ Ef) as (m & Hm & Ha & _).
           destruct a as [err|text|err].
           ++ split; [split; discriminate|]. split; [|discriminate].
              split; [discriminate|intros (_ & _ & H); discriminate H].
           ++ destruct (json_loads sv (clean_response text)) as [err|j'] eqn:Ej.
              ** split; [split; discriminate|]. split; [|discriminate].
                 split; [discriminate|intros (_ & _ & H); discriminate H].
              ** split; [split; discriminate|]. split.
                 --- split; [discriminate|intros (_ & _ & H); discriminate H].
                 --- intros j [= <-]. split; [reflexivity|].
                     exists s, m, text. repeat split; assumption.
           ++ split; [split; discriminate|]. split; [|discriminate].
              split; [discriminate|intros (_ & _ & H); discriminate H].
      * split; [split; discriminate|]. split; [|discriminate].
        split; [intros _|reflexivity].
        split; [discriminate|]. split; [now exists s|reflexivity].
    + split; [split; discriminate|]. split; [|discriminate].
      split; [discriminate|intros (_ & [s Hs] & _); discriminate Hs].
  - split; [split; reflexivity|]. split; [|discriminate].
    split; [discriminate|intros (H & _); now contradiction H].
Qed.

End AnalystFacts.

Lemma clean_response_unwraps_fence_witness :
  clean_response ((" " ++ (Py.fence ++ ("json" ++ " {} ") ++ Py.fence) ++ Py.newline))
  = "{}"%string.
Proof.
  apply (proj1 (clean_response_unwraps_fence " " Py.newline " {} "
                  eq_refl eq_refl eq_refl)).
Defined.

Lemma analyst_re_keywords : re_keywords_law analyst_backend.
Proof. intros s. reflexivity. Qed.

Lemma example_sample_contract : sample_contract example_services.
Proof.
  intros A n l Hn. cbn [sample example_services]. split.
  - rewrite length_firstn. lia.
  - exists (skipn n l). now rewrite firstn_skipn.
Qed.

Lemma suspicious_selection_witness :
  subseq
    (filter (fun r => is_failure r
                      || existsb (fun k => Str.icontains k (request r)) keywords)
            example_table)
    example_table.
Proof.
  apply (suspicious_selection (B:=analyst_backend) example_table).
  vm_compute. reflexivity.
Defined.

Lemma suspicious_is_failure_or_keyword_witness :
  option_map (map request)
    (match suspicious (B:=analyst_backend) example_table with
     | Ok s => Some s
     | Raise _ => None
     end)
  = Some ["GET /Admin/panel"; "GET /missing"].
Proof.
  rewrite (suspicious_is_failure_or_keyword (B:=analyst_backend)
             analyst_re_keywords example_table).
  vm_compute. reflexivity.
Defined.

Lemma log_block_lines_witness :
  exists picked,
    log_block (B:=analyst_backend) example_services example_table
    = String.concat Py.newline (map (_row_to_log_line (B:=analyst_backend)) picked)
    /\ List.length picked = 3%nat.
Proof.
  destruct (log_block_lines (B:=analyst_backend) example_services
              example_sample_contract example_table)
    as (picked & Hb & Hl & _).
  exists picked. split; [exact Hb|exact Hl].
Defined.

Lemma analyze_uses_first_answering_model_witness :
  analyze (B:=analyst_backend) example_services (Some example_table)
          (Some "key")
  = Analysis "{}"%string.
Proof.
  apply (analyze_uses_first_answering_model (B:=analyst_backend)
           example_services
           (nth 0 example_table
              {| host := CNull; time := CNull; request := ""; status := 0;
                 bytes := CNull; dt := None |})
           (tl example_table)
           (filter (fun r => is_failure r
                             || existsb (fun k => Str.icontains k (request r))
                                        keywords) example_table)
           "key"
           ["gemini-1.5-flash"; "gemini-1.5-flash-001"; "gemini-1.5-pro"]
           ["gemini-1.0-pro"] "gemini-pro"
           (Py.fence ++ "json" ++ Py.newline ++ "{}" ++ Py.newline ++ Py.fence)).
  - discriminate.
  - vm_compute. reflexivity.
  - reflexivity.
  - intros m' Hm'. exists ("404 " ++ m')%string.
    destruct Hm' as [<-|[<-|[<-|[]]]]; reflexivity.
  - reflexivity.
Defined.

Lemma analyze_reports_last_model_error_witness :
  exists err,
    generate offline_services
      (full_prompt
         (log_block (B:=analyst_backend) offline_services
            (filter (fun r => is_failure r
                              || existsb (fun k => Str.icontains k (request r))
                                         keywords) example_table)))
      "gemini-1.0-pro" = NoAnswer err
    /\ analyze (B:=analyst_backend) offline_services (Some example_table)
               (Some "key")
       = ManualReview (AllModelsFailed err).
Proof.
  apply (analyze_reports_last_model_error (B:=analyst_backend)
           offline_services
           (nth 0 example_table
              {| host := CNull; time := CNull; request := ""; status := 0;
                 bytes := CNull; dt := None |})
           (tl example_table)
           (filter (fun r => is_failure r
                             || existsb (fun k => Str.icontains k (request r))
                                        keywords) example_table)
           "key").
  - discriminate.
  - vm_compute. reflexivity.
  - intros m _. exists ("404 " ++ m)%string. reflexivity.
Defined.
